(** * youtube-rubric-extractor: a shallow embedding of the utility modules

    The development follows the source files:
    - [utils/rubric_parser.py]: [parse_rubric_json], [_validate_rubric],
      [generate_rubric_id], [merge_rubrics];
    - [utils/youtube.py]: [chunk_transcript];
    - [utils/llm_client.py]: [LLMClient._init_client], [complete],
      [complete_with_retry];
    - [extract_rubric.py]: [save_rubric].

    Python values appear in two forms.  A value that is only ever owned by
    one variable (the tree returned by json.loads, a result dict) is a [json]
    tree and an in-place update of it is written as a functional update.
    [merge_rubrics] works on dicts and lists that its caller still holds, so
    it is embedded over an explicit object store in which lists and dicts
    are reached through references.

    What the code asks of its libraries and of the machine is a parameter
    of the function that asks: json.loads, the constructor of the OpenAI
    client, the remote service, and the answers of the operating system to
    mkdir, open and print. *)

From stdpp Require Import base tactics option list strings gmap.
From Stdlib Require Import ZArith Lia Ascii String.

Open Scope string_scope.
Open Scope Z_scope.

(** ** Exceptions and results *)

(** The exception classes that the modelled code and the library calls it
    makes can raise.  JSONDecodeError and UnicodeEncodeError are subclasses
    of ValueError; FileNotFoundError, FileExistsError, IsADirectoryError,
    NotADirectoryError and PermissionError are subclasses of OSError. *)
Inductive exn : Set :=
| ValueError
| TypeError
| AttributeError
| KeyError
| IndexError
| UnboundLocalError
| JSONDecodeError
| UnicodeEncodeError
| RecursionError
| MemoryError
| OSError
| FileNotFoundError
| FileExistsError
| IsADirectoryError
| NotADirectoryError
| PermissionError.

(** [isinstance(e, ValueError)] and [isinstance(e, OSError)]. *)
Definition is_value_error (e : exn) : bool :=
  match e with
  | ValueError | JSONDecodeError | UnicodeEncodeError => true
  | _ => false
  end.

Definition is_os_error (e : exn) : bool :=
  match e with
  | OSError | FileNotFoundError | FileExistsError | IsADirectoryError
  | NotADirectoryError | PermissionError => true
  | _ => false
  end.

Inductive result (A : Type) : Type :=
| Ok (a : A)
| Raise (e : exn).
Arguments Ok {A} a.
Arguments Raise {A} e.

Definition rbind {A B} (r : result A) (k : A -> result B) : result B :=
  match r with
  | Ok a => k a
  | Raise e => Raise e
  end.

Declare Scope result_scope.
Delimit Scope result_scope with res.
Notation "'let*' x ':=' r 'in' k" := (rbind r (fun x => k))
  (at level 10, x name, r at level 100, k at level 200) : result_scope.

Fixpoint rmap {A B} (f : A -> result B) (xs : list A) : result (list B) :=
  match xs with
  | [] => Ok []
  | x :: xs' =>
      (let* y := f x in let* ys := rmap f xs' in Ok (y :: ys))%res
  end.

(** ** Python strings

    The transcripts, the responses of the model and the strings inside JSON
    values are [string]s whose characters are code points below 256 (Latin-1
    text).  The functions below are the methods and regular expressions the
    source applies to them, restricted to that range.  The titles that
    [generate_rubric_id] turns into file names are Unicode text, see below. *)

Definition nl : string := String (ascii_of_nat 10) EmptyString.

Definition len (s : string) : Z := Z.of_nat (String.length s).

(** The truth value of a str. *)
Definition nonempty (s : string) : bool := negb (String.eqb s EmptyString).

(** [str.isspace] on one character, which is also what the pattern \s matches:
    TAB..CR, FS..US, space, NEL and NBSP. *)
Definition is_space (c : ascii) : bool :=
  let n := nat_of_ascii c in
  (Nat.leb 9 n && Nat.leb n 13) || (Nat.leb 28 n && Nat.leb n 32)
  || Nat.eqb n 133 || Nat.eqb n 160.

Fixpoint lstrip (s : string) : string :=
  match s with
  | EmptyString => EmptyString
  | String c s' => if is_space c then lstrip s' else s
  end.

Fixpoint rstrip (s : string) : string :=
  match s with
  | EmptyString => EmptyString
  | String c s' =>
      match rstrip s' with
      | EmptyString => if is_space c then EmptyString else String c EmptyString
      | r => String c r
      end
  end.

(** [s.strip()] *)
Definition strip (s : string) : string := rstrip (lstrip s).

Fixpoint str_take (n : nat) (s : string) : string :=
  match n, s with
  | S n', String c s' => String c (str_take n' s')
  | _, _ => EmptyString
  end.

Fixpoint str_drop (n : nat) (s : string) : string :=
  match n, s with
  | S n', String _ s' => str_drop n' s'
  | _, _ => s
  end.

(** A slice bound as Python reads it: a negative index counts from the end,
    and the result is clamped to [0, len]. *)
Definition clamp_index (n i : Z) : Z :=
  if i <? 0 then Z.max 0 (i + n) else Z.min i n.

(** [s[i:j]] *)
Definition slice (s : string) (i j : Z) : string :=
  let a := clamp_index (len s) i in
  let b := clamp_index (len s) j in
  str_take (Z.to_nat (b - a)) (str_drop (Z.to_nat a) s).

(** [sub in s] *)
Fixpoint contains (sub s : string) : bool :=
  prefix sub s ||
  match s with
  | EmptyString => false
  | String _ s' => contains sub s'
  end.

(** The text before the first occurrence of [sub] in [s]. *)
Fixpoint before_first (sub s : string) : option string :=
  if prefix sub s then Some EmptyString
  else match s with
       | EmptyString => None
       | String c s' => option_map (String c) (before_first sub s')
       end.

(** [re.search(opening + '(.*?)' + closing, s, re.DOTALL)] for literal
    [opening] and [closing], returning group 1: the leftmost position at which
    [opening] matches and [closing] occurs later, and from there the shortest
    text up to an occurrence of [closing]. *)
Fixpoint re_search_between (opening closing s : string) : option string :=
  let here :=
    if prefix opening s
    then before_first closing (str_drop (String.length opening) s)
    else None in
  match here with
  | Some g => Some g
  | None =>
      match s with
      | EmptyString => None
      | String _ s' => re_search_between opening closing s'
      end
  end.

(** [s.rfind(sub, start, stop)]: the highest index in the adjusted range at
    which [sub] occurs, or -1.  The bounds are adjusted as CPython does: a
    negative bound counts from the end, [stop] is cut to the length. *)
Fixpoint rfind_scan (s sub : string) (lo : Z) (k : nat) : Z :=
  match k with
  | O => -1
  | S k' =>
      let pos := lo + Z.of_nat k' in
      if prefix sub (str_drop (Z.to_nat pos) s) then pos
      else rfind_scan s sub lo k'
  end.

Definition rfind (s sub : string) (start stop : Z) : Z :=
  let n := len s in
  let e := if n <? stop then n else if stop <? 0 then Z.max 0 (stop + n) else stop in
  let b := if start <? 0 then Z.max 0 (start + n) else start in
  if e - b <? len sub then -1
  else rfind_scan s sub b (Z.to_nat (e - b - len sub + 1)).

(** ** Unicode text

    A title is an arbitrary Python str: a sequence of Unicode code points.
    The tables are those of the Unicode database that CPython 3.11 carries
    (Unicode 14.0), which str.lower, str.strip and the class \s of the re
    module consult. *)

Module Unicode.

Abbreviation text := (list N).

(** The text of a Latin-1 string, and the string of a text whose code points
    are all below 256. *)
Definition of_string (s : string) : text :=
  map N_of_ascii (list_ascii_of_string s).

Definition to_string (t : text) : string :=
  string_of_list_ascii (map ascii_of_N t).

Definition in_ranges (table : list (N * N)) (c : N) : bool :=
  existsb (fun r => (fst r <=? c) && (c <=? snd r))%N table.

(** Py_UNICODE_ISSPACE, as ranges (first, last): what str.isspace, str.strip
    and \s accept. *)
Definition space_table : list (N * N) :=
  [
   (9, 13); (28, 32); (133, 133); (160, 160); (5760, 5760); (8192, 8202);
   (8232, 8233); (8239, 8239); (8287, 8287); (12288, 12288)
  ]%N.

Definition is_space (c : N) : bool := in_ranges space_table c.

Definition is_ascii_lower (c : N) : bool := ((97 <=? c) && (c <=? 122))%N.

Definition is_ascii_upper (c : N) : bool := ((65 <=? c) && (c <=? 90))%N.

Definition is_ascii_digit (c : N) : bool := ((48 <=? c) && (c <=? 57))%N.

(** The simple lowercase mappings: (first, last, step, target) maps the code
    points first, first + step, ..., last to target, target + step, ... *)
Definition lower_table : list (N * N * N * N) :=
  [
   (65, 90, 1, 97); (192, 214, 1, 224); (216, 222, 1, 248); (256, 302, 2, 257);
   (306, 310, 2, 307); (313, 327, 2, 314); (330, 374, 2, 331); (376, 376, 1, 255);
   (377, 381, 2, 378); (385, 385, 1, 595); (386, 388, 2, 387); (390, 390, 1, 596);
   (391, 391, 1, 392); (393, 394, 1, 598); (395, 395, 1, 396); (398, 398, 1, 477);
   (399, 399, 1, 601); (400, 400, 1, 603); (401, 401, 1, 402); (403, 403, 1, 608);
   (404, 404, 1, 611); (406, 406, 1, 617); (407, 407, 1, 616); (408, 408, 1, 409);
   (412, 412, 1, 623); (413, 413, 1, 626); (415, 415, 1, 629); (416, 420, 2, 417);
   (422, 422, 1, 640); (423, 423, 1, 424); (425, 425, 1, 643); (428, 428, 1, 429);
   (430, 430, 1, 648); (431, 431, 1, 432); (433, 434, 1, 650); (435, 437, 2, 436);
   (439, 439, 1, 658); (440, 440, 1, 441); (444, 444, 1, 445); (452, 452, 1, 454);
   (453, 453, 1, 454); (455, 455, 1, 457); (456, 456, 1, 457); (458, 458, 1, 460);
   (459, 475, 2, 460); (478, 494, 2, 479); (497, 497, 1, 499); (498, 500, 2, 499);
   (502, 502, 1, 405); (503, 503, 1, 447); (504, 542, 2, 505); (544, 544, 1, 414);
   (546, 562, 2, 547); (570, 570, 1, 11365); (571, 571, 1, 572); (573, 573, 1, 410);
   (574, 574, 1, 11366); (577, 577, 1, 578); (579, 579, 1, 384); (580, 580, 1, 649);
   (581, 581, 1, 652); (582, 590, 2, 583); (880, 882, 2, 881); (886, 886, 1, 887);
   (895, 895, 1, 1011); (902, 902, 1, 940); (904, 906, 1, 941); (908, 908, 1, 972);
   (910, 911, 1, 973); (913, 929, 1, 945); (931, 939, 1, 963); (975, 975, 1, 983);
   (984, 1006, 2, 985); (1012, 1012, 1, 952); (1015, 1015, 1, 1016); (1017, 1017, 1, 1010);
   (1018, 1018, 1, 1019); (1021, 1023, 1, 891); (1024, 1039, 1, 1104); (1040, 1071, 1, 1072);
   (1120, 1152, 2, 1121); (1162, 1214, 2, 1163); (1216, 1216, 1, 1231); (1217, 1229, 2, 1218);
   (1232, 1326, 2, 1233); (1329, 1366, 1, 1377); (4256, 4293, 1, 11520); (4295, 4295, 1, 11559);
   (4301, 4301, 1, 11565); (5024, 5103, 1, 43888); (5104, 5109, 1, 5112); (7312, 7354, 1, 4304);
   (7357, 7359, 1, 4349); (7680, 7828, 2, 7681); (7838, 7838, 1, 223); (7840, 7934, 2, 7841);
   (7944, 7951, 1, 7936); (7960, 7965, 1, 7952); (7976, 7983, 1, 7968); (7992, 7999, 1, 7984);
   (8008, 8013, 1, 8000); (8025, 8031, 2, 8017); (8040, 8047, 1, 8032); (8072, 8079, 1, 8064);
   (8088, 8095, 1, 8080); (8104, 8111, 1, 8096); (8120, 8121, 1, 8112); (8122, 8123, 1, 8048);
   (8124, 8124, 1, 8115); (8136, 8139, 1, 8050); (8140, 8140, 1, 8131); (8152, 8153, 1, 8144);
   (8154, 8155, 1, 8054); (8168, 8169, 1, 8160); (8170, 8171, 1, 8058); (8172, 8172, 1, 8165);
   (8184, 8185, 1, 8056); (8186, 8187, 1, 8060); (8188, 8188, 1, 8179); (8486, 8486, 1, 969);
   (8490, 8490, 1, 107); (8491, 8491, 1, 229); (8498, 8498, 1, 8526); (8544, 8559, 1, 8560);
   (8579, 8579, 1, 8580); (9398, 9423, 1, 9424); (11264, 11311, 1, 11312); (11360, 11360, 1, 11361);
   (11362, 11362, 1, 619); (11363, 11363, 1, 7549); (11364, 11364, 1, 637); (11367, 11371, 2, 11368);
   (11373, 11373, 1, 593); (11374, 11374, 1, 625); (11375, 11375, 1, 592); (11376, 11376, 1, 594);
   (11378, 11378, 1, 11379); (11381, 11381, 1, 11382); (11390, 11391, 1, 575); (11392, 11490, 2, 11393);
   (11499, 11501, 2, 11500); (11506, 11506, 1, 11507); (42560, 42604, 2, 42561); (42624, 42650, 2, 42625);
   (42786, 42798, 2, 42787); (42802, 42862, 2, 42803); (42873, 42875, 2, 42874); (42877, 42877, 1, 7545);
   (42878, 42886, 2, 42879); (42891, 42891, 1, 42892); (42893, 42893, 1, 613); (42896, 42898, 2, 42897);
   (42902, 42920, 2, 42903); (42922, 42922, 1, 614); (42923, 42923, 1, 604); (42924, 42924, 1, 609);
   (42925, 42925, 1, 620); (42926, 42926, 1, 618); (42928, 42928, 1, 670); (42929, 42929, 1, 647);
   (42930, 42930, 1, 669); (42931, 42931, 1, 43859); (42932, 42946, 2, 42933); (42948, 42948, 1, 42900);
   (42949, 42949, 1, 642); (42950, 42950, 1, 7566); (42951, 42953, 2, 42952); (42960, 42960, 1, 42961);
   (42966, 42968, 2, 42967); (42997, 42997, 1, 42998); (65313, 65338, 1, 65345); (66560, 66599, 1, 66600);
   (66736, 66771, 1, 66776); (66928, 66964, 2, 66967); (66929, 66937, 2, 66968); (66941, 66953, 2, 66980);
   (66957, 66961, 2, 66996); (66965, 66965, 1, 67004); (68736, 68786, 1, 68800); (71840, 71871, 1, 71872);
   (93760, 93791, 1, 93792); (125184, 125217, 1, 125218)
  ]%N.

(** The code points with the property Case_Ignorable. *)
Definition case_ignorable_table : list (N * N) :=
  [
   (39, 39); (46, 46); (58, 58); (94, 94); (96, 96); (168, 168);
   (173, 173); (175, 175); (180, 180); (183, 184); (688, 879); (884, 885);
   (890, 890); (900, 901); (903, 903); (1155, 1161); (1369, 1369); (1375, 1375);
   (1425, 1469); (1471, 1471); (1473, 1474); (1476, 1477); (1479, 1479); (1524, 1524);
   (1536, 1541); (1552, 1562); (1564, 1564); (1600, 1600); (1611, 1631); (1648, 1648);
   (1750, 1757); (1759, 1768); (1770, 1773); (1807, 1807); (1809, 1809); (1840, 1866);
   (1958, 1968); (2027, 2037); (2042, 2042); (2045, 2045); (2070, 2093); (2137, 2139);
   (2184, 2184); (2192, 2193); (2200, 2207); (2249, 2306); (2362, 2362); (2364, 2364);
   (2369, 2376); (2381, 2381); (2385, 2391); (2402, 2403); (2417, 2417); (2433, 2433);
   (2492, 2492); (2497, 2500); (2509, 2509); (2530, 2531); (2558, 2558); (2561, 2562);
   (2620, 2620); (2625, 2626); (2631, 2632); (2635, 2637); (2641, 2641); (2672, 2673);
   (2677, 2677); (2689, 2690); (2748, 2748); (2753, 2757); (2759, 2760); (2765, 2765);
   (2786, 2787); (2810, 2815); (2817, 2817); (2876, 2876); (2879, 2879); (2881, 2884);
   (2893, 2893); (2901, 2902); (2914, 2915); (2946, 2946); (3008, 3008); (3021, 3021);
   (3072, 3072); (3076, 3076); (3132, 3132); (3134, 3136); (3142, 3144); (3146, 3149);
   (3157, 3158); (3170, 3171); (3201, 3201); (3260, 3260); (3263, 3263); (3270, 3270);
   (3276, 3277); (3298, 3299); (3328, 3329); (3387, 3388); (3393, 3396); (3405, 3405);
   (3426, 3427); (3457, 3457); (3530, 3530); (3538, 3540); (3542, 3542); (3633, 3633);
   (3636, 3642); (3654, 3662); (3761, 3761); (3764, 3772); (3782, 3782); (3784, 3789);
   (3864, 3865); (3893, 3893); (3895, 3895); (3897, 3897); (3953, 3966); (3968, 3972);
   (3974, 3975); (3981, 3991); (3993, 4028); (4038, 4038); (4141, 4144); (4146, 4151);
   (4153, 4154); (4157, 4158); (4184, 4185); (4190, 4192); (4209, 4212); (4226, 4226);
   (4229, 4230); (4237, 4237); (4253, 4253); (4348, 4348); (4957, 4959); (5906, 5908);
   (5938, 5939); (5970, 5971); (6002, 6003); (6068, 6069); (6071, 6077); (6086, 6086);
   (6089, 6099); (6103, 6103); (6109, 6109); (6155, 6159); (6211, 6211); (6277, 6278);
   (6313, 6313); (6432, 6434); (6439, 6440); (6450, 6450); (6457, 6459); (6679, 6680);
   (6683, 6683); (6742, 6742); (6744, 6750); (6752, 6752); (6754, 6754); (6757, 6764);
   (6771, 6780); (6783, 6783); (6823, 6823); (6832, 6862); (6912, 6915); (6964, 6964);
   (6966, 6970); (6972, 6972); (6978, 6978); (7019, 7027); (7040, 7041); (7074, 7077);
   (7080, 7081); (7083, 7085); (7142, 7142); (7144, 7145); (7149, 7149); (7151, 7153);
   (7212, 7219); (7222, 7223); (7288, 7293); (7376, 7378); (7380, 7392); (7394, 7400);
   (7405, 7405); (7412, 7412); (7416, 7417); (7468, 7530); (7544, 7544); (7579, 7679);
   (8125, 8125); (8127, 8129); (8141, 8143); (8157, 8159); (8173, 8175); (8189, 8190);
   (8203, 8207); (8216, 8217); (8228, 8228); (8231, 8231); (8234, 8238); (8288, 8292);
   (8294, 8303); (8305, 8305); (8319, 8319); (8336, 8348); (8400, 8432); (11388, 11389);
   (11503, 11505); (11631, 11631); (11647, 11647); (11744, 11775); (11823, 11823); (12293, 12293);
   (12330, 12333); (12337, 12341); (12347, 12347); (12441, 12446); (12540, 12542); (40981, 40981);
   (42232, 42237); (42508, 42508); (42607, 42610); (42612, 42621); (42623, 42623); (42652, 42655);
   (42736, 42737); (42752, 42785); (42864, 42864); (42888, 42890); (42994, 42996); (43000, 43001);
   (43010, 43010); (43014, 43014); (43019, 43019); (43045, 43046); (43052, 43052); (43204, 43205);
   (43232, 43249); (43263, 43263); (43302, 43309); (43335, 43345); (43392, 43394); (43443, 43443);
   (43446, 43449); (43452, 43453); (43471, 43471); (43493, 43494); (43561, 43566); (43569, 43570);
   (43573, 43574); (43587, 43587); (43596, 43596); (43632, 43632); (43644, 43644); (43696, 43696);
   (43698, 43700); (43703, 43704); (43710, 43711); (43713, 43713); (43741, 43741); (43756, 43757);
   (43763, 43764); (43766, 43766); (43867, 43871); (43881, 43883); (44005, 44005); (44008, 44008);
   (44013, 44013); (64286, 64286); (64434, 64450); (65024, 65039); (65043, 65043); (65056, 65071);
   (65106, 65106); (65109, 65109); (65279, 65279); (65287, 65287); (65294, 65294); (65306, 65306);
   (65342, 65342); (65344, 65344); (65392, 65392); (65438, 65439); (65507, 65507); (65529, 65531);
   (66045, 66045); (66272, 66272); (66422, 66426); (67456, 67461); (67463, 67504); (67506, 67514);
   (68097, 68099); (68101, 68102); (68108, 68111); (68152, 68154); (68159, 68159); (68325, 68326);
   (68900, 68903); (69291, 69292); (69446, 69456); (69506, 69509); (69633, 69633); (69688, 69702);
   (69744, 69744); (69747, 69748); (69759, 69761); (69811, 69814); (69817, 69818); (69821, 69821);
   (69826, 69826); (69837, 69837); (69888, 69890); (69927, 69931); (69933, 69940); (70003, 70003);
   (70016, 70017); (70070, 70078); (70089, 70092); (70095, 70095); (70191, 70193); (70196, 70196);
   (70198, 70199); (70206, 70206); (70367, 70367); (70371, 70378); (70400, 70401); (70459, 70460);
   (70464, 70464); (70502, 70508); (70512, 70516); (70712, 70719); (70722, 70724); (70726, 70726);
   (70750, 70750); (70835, 70840); (70842, 70842); (70847, 70848); (70850, 70851); (71090, 71093);
   (71100, 71101); (71103, 71104); (71132, 71133); (71219, 71226); (71229, 71229); (71231, 71232);
   (71339, 71339); (71341, 71341); (71344, 71349); (71351, 71351); (71453, 71455); (71458, 71461);
   (71463, 71467); (71727, 71735); (71737, 71738); (71995, 71996); (71998, 71998); (72003, 72003);
   (72148, 72151); (72154, 72155); (72160, 72160); (72193, 72202); (72243, 72248); (72251, 72254);
   (72263, 72263); (72273, 72278); (72281, 72283); (72330, 72342); (72344, 72345); (72752, 72758);
   (72760, 72765); (72767, 72767); (72850, 72871); (72874, 72880); (72882, 72883); (72885, 72886);
   (73009, 73014); (73018, 73018); (73020, 73021); (73023, 73029); (73031, 73031); (73104, 73105);
   (73109, 73109); (73111, 73111); (73459, 73460); (78896, 78904); (92912, 92916); (92976, 92982);
   (92992, 92995); (94031, 94031); (94095, 94111); (94176, 94177); (94179, 94180); (110576, 110579);
   (110581, 110587); (110589, 110590); (113821, 113822); (113824, 113827); (118528, 118573); (118576, 118598);
   (119143, 119145); (119155, 119170); (119173, 119179); (119210, 119213); (119362, 119364); (121344, 121398);
   (121403, 121452); (121461, 121461); (121476, 121476); (121499, 121503); (121505, 121519); (122880, 122886);
   (122888, 122904); (122907, 122913); (122915, 122916); (122918, 122922); (123184, 123197); (123566, 123566);
   (123628, 123631); (125136, 125142); (125252, 125259); (127995, 127999); (917505, 917505); (917536, 917631);
   (917760, 917999)
  ]%N.

(** The code points with the property Cased, those that are Case_Ignorable
    too left out: the scan for the final sigma asks for Cased only after
    Case_Ignorable was denied. *)
Definition cased_table : list (N * N) :=
  [
   (65, 90); (97, 122); (170, 170); (181, 181); (186, 186); (192, 214);
   (216, 246); (248, 442); (444, 447); (452, 659); (661, 687); (880, 883);
   (886, 887); (891, 893); (895, 895); (902, 902); (904, 906); (908, 908);
   (910, 929); (931, 1013); (1015, 1153); (1162, 1327); (1329, 1366); (1376, 1416);
   (4256, 4293); (4295, 4295); (4301, 4301); (4304, 4346); (4349, 4351); (5024, 5109);
   (5112, 5117); (7296, 7304); (7312, 7354); (7357, 7359); (7424, 7467); (7531, 7543);
   (7545, 7578); (7680, 7957); (7960, 7965); (7968, 8005); (8008, 8013); (8016, 8023);
   (8025, 8025); (8027, 8027); (8029, 8029); (8031, 8061); (8064, 8116); (8118, 8124);
   (8126, 8126); (8130, 8132); (8134, 8140); (8144, 8147); (8150, 8155); (8160, 8172);
   (8178, 8180); (8182, 8188); (8450, 8450); (8455, 8455); (8458, 8467); (8469, 8469);
   (8473, 8477); (8484, 8484); (8486, 8486); (8488, 8488); (8490, 8493); (8495, 8500);
   (8505, 8505); (8508, 8511); (8517, 8521); (8526, 8526); (8544, 8575); (8579, 8580);
   (9398, 9449); (11264, 11387); (11390, 11492); (11499, 11502); (11506, 11507); (11520, 11557);
   (11559, 11559); (11565, 11565); (42560, 42605); (42624, 42651); (42786, 42863); (42865, 42887);
   (42891, 42894); (42896, 42954); (42960, 42961); (42963, 42963); (42965, 42969); (42997, 42998);
   (43002, 43002); (43824, 43866); (43872, 43880); (43888, 43967); (64256, 64262); (64275, 64279);
   (65313, 65338); (65345, 65370); (66560, 66639); (66736, 66771); (66776, 66811); (66928, 66938);
   (66940, 66954); (66956, 66962); (66964, 66965); (66967, 66977); (66979, 66993); (66995, 67001);
   (67003, 67004); (68736, 68786); (68800, 68850); (71840, 71903); (93760, 93823); (119808, 119892);
   (119894, 119964); (119966, 119967); (119970, 119970); (119973, 119974); (119977, 119980); (119982, 119993);
   (119995, 119995); (119997, 120003); (120005, 120069); (120071, 120074); (120077, 120084); (120086, 120092);
   (120094, 120121); (120123, 120126); (120128, 120132); (120134, 120134); (120138, 120144); (120146, 120485);
   (120488, 120512); (120514, 120538); (120540, 120570); (120572, 120596); (120598, 120628); (120630, 120654);
   (120656, 120686); (120688, 120712); (120714, 120744); (120746, 120770); (120772, 120779); (122624, 122633);
   (122635, 122654); (125184, 125251); (127280, 127305); (127312, 127337); (127344, 127369)
  ]%N.

Definition is_case_ignorable (c : N) : bool := in_ranges case_ignorable_table c.

Definition is_cased (c : N) : bool := in_ranges cased_table c.

Definition in_step (r : N * N * N * N) (c : N) : bool :=
  let '(first, last, step, _) := r in
  ((first <=? c) && (c <=? last) && ((c - first) mod step =? 0))%N.

(** _PyUnicode_ToLowerFull: U+0130 is the one code point whose lowercase has
    two code points (i and the combining dot above). *)
Definition lower_full (c : N) : text :=
  if (c =? 304)%N then [105; 775]%N
  else match List.find (fun r => in_step r c) lower_table with
       | Some (first, _, _, target) => [target + (c - first)]%N
       | None => [c]
       end.

(** handle_capital_sigma: a capital sigma becomes the final sigma U+03C2
    when a cased letter stands before it and none after it, code points that
    are Case_Ignorable being skipped on both sides.  [before] is the text
    before the sigma read backwards. *)
Definition final_sigma (before after : text) : bool :=
  match List.find (fun c => negb (is_case_ignorable c)) before with
  | Some c =>
      is_cased c &&
      match List.find (fun c => negb (is_case_ignorable c)) after with
      | Some c' => negb (is_cased c')
      | None => true
      end
  | None => false
  end.

Fixpoint lower_from (before : text) (s : text) : text :=
  match s with
  | [] => []
  | c :: s' =>
      app (if (c =? 931)%N
           then [if final_sigma before s' then 962 else 963]%N
           else lower_full c)
          (lower_from (c :: before) s')
  end.

(** [s.lower()] *)
Definition lower (s : text) : text := lower_from [] s.

Fixpoint lstrip (s : text) : text :=
  match s with
  | [] => []
  | c :: s' => if is_space c then lstrip s' else s
  end.

Fixpoint rstrip (s : text) : text :=
  match s with
  | [] => []
  | c :: s' =>
      match rstrip s' with
      | [] => if is_space c then [] else [c]
      | r => c :: r
      end
  end.

(** [s.strip()] *)
Definition strip (s : text) : text := rstrip (lstrip s).

(** [re.sub(r'\s+', '_', s)]: every maximal run of whitespace becomes one
    underscore (code point 95).  [in_run] records that the previous code
    point was whitespace. *)
Fixpoint sub_ws_runs (in_run : bool) (s : text) : text :=
  match s with
  | [] => []
  | c :: s' =>
      if is_space c
      then (if in_run then sub_ws_runs true s' else 95%N :: sub_ws_runs true s')
      else c :: sub_ws_runs false s'
  end.

End Unicode.

(** ** JSON values

    What json.loads returns: None, bool, int, str, list and dict.  A dict
    keeps its keys in insertion order, so it is an association list; numbers
    are integers (the rubric's timings and counts). *)

#[warnings="-register-all"]
Inductive json : Type :=
| JNull
| JBool (b : bool)
| JNum (n : Z)
| JStr (s : string)
| JArr (xs : list json)
| JObj (kvs : list (string * json)).

Abbreviation dict := (list (string * json)).

(** [d.get(k)] / [k in d] *)
Fixpoint dict_get {V} (k : string) (d : list (string * V)) : option V :=
  match d with
  | [] => None
  | (k', v) :: d' => if String.eqb k k' then Some v else dict_get k d'
  end.

(** [d[k] = v]: an existing key keeps its place, a new key goes last. *)
Fixpoint dict_set {V} (k : string) (v : V) (d : list (string * V)) : list (string * V) :=
  match d with
  | [] => [(k, v)]
  | (k', v') :: d' =>
      if String.eqb k k' then (k', v) :: d' else (k', v') :: dict_set k v d'
  end.

(** [d.setdefault(k, v)], as a statement. *)
Definition dict_setdefault {V} (k : string) (v : V) (d : list (string * V)) : list (string * V) :=
  match dict_get k d with
  | Some _ => d
  | None => dict_set k v d
  end.

(** Truth value of an object: None, False, 0 and empty containers are false. *)
Definition truthy (v : json) : bool :=
  match v with
  | JNull => false
  | JBool b => b
  | JNum n => negb (n =? 0)
  | JStr s => negb (String.eqb s EmptyString)
  | JArr xs => match xs with [] => false | _ => true end
  | JObj kvs => match kvs with [] => false | _ => true end
  end.

Fixpoint chars (s : string) : list json :=
  match s with
  | EmptyString => []
  | String c s' => JStr (String c EmptyString) :: chars s'
  end.

(** [for x in it: body(x)] where the body updates [x] in place.  A list
    yields its elements, and the updated elements stay in the list; a dict
    yields its keys and a str its characters, which are immutable, so only
    the exceptions of the body remain; anything else is not iterable. *)
Definition for_each (body : json -> result json) (it : json) : result json :=
  match it with
  | JArr xs => (let* xs' := rmap body xs in Ok (JArr xs'))%res
  | JObj kvs => (let* _ := rmap body (map (fun kv => JStr (fst kv)) kvs) in Ok it)%res
  | JStr s => (let* _ := rmap body (chars s) in Ok it)%res
  | _ => Raise TypeError
  end.

(** ** utils/rubric_parser.py on JSON trees *)

Module RubricParser.

(** The markdown fence step of [parse_rubric_json] (lines 20-28): when the
    text mentions a fence and the pattern matches, the text becomes group 1. *)
Definition extract_fenced (content : string) : string :=
  if contains "```json" content then
    match re_search_between ("```json" ++ nl) (nl ++ "```") content with
    | Some g => g
    | None => content
    end
  else if contains "```" content then
    match re_search_between ("```" ++ nl) (nl ++ "```") content with
    | Some g => g
    | None => content
    end
  else content.

(** [if field not in rubric or not rubric[field]: rubric[field] = 'unknown'] *)
Definition fill_required (field : string) (rubric : dict) : dict :=
  match dict_get field rubric with
  | Some v => if truthy v then rubric else dict_set field (JStr "unknown") rubric
  | None => dict_set field (JStr "unknown") rubric
  end.

(** [action.setdefault('importance', 'important')]: only a dict has the method. *)
Definition validate_action (action : json) : result json :=
  match action with
  | JObj a => Ok (JObj (dict_setdefault "importance" (JStr "important") a))
  | _ => Raise AttributeError
  end.

(** The body of the loop over phases (lines 62-68). *)
Definition validate_phase (phase : json) : result json :=
  match phase with
  | JObj p =>
      let p := dict_setdefault "key_actions" (JArr []) p in
      let p := dict_setdefault "success_criteria" (JArr []) p in
      let p := dict_setdefault "common_mistakes" (JArr []) p in
      match dict_get "key_actions" p with
      | Some actions =>
          (let* actions' := for_each validate_action actions in
           Ok (JObj (dict_set "key_actions" actions' p)))%res
      | None => Ok (JObj p)
      end
  | _ => Raise AttributeError
  end.

Definition benchmark_keys : list string :=
  ["feudal_age"; "castle_age"; "imperial_age"; "second_tc"; "third_tc";
   "villagers_at_10min"; "villagers_at_castle"].

(** [_validate_rubric] (lines 44-82).  [now] is the text that
    datetime.now().isoformat() returns at the call.  A rubric that is not a
    dict fails in the first statement with TypeError, whatever its type. *)
Definition _validate_rubric (now : string) (rubric : json) : result json :=
  match rubric with
  | JObj r =>
      let r := fold_left (fun r field => fill_required field r)
                 ["title"; "difficulty"; "archetype"] r in
      let r := dict_setdefault "civilizations" (JArr []) r in
      let r := dict_setdefault "map_types" (JArr [JStr "any"]) r in
      let r := dict_setdefault "phases" (JArr []) r in
      let r := dict_setdefault "decision_points" (JArr []) r in
      let r := dict_setdefault "counters" (JObj []) r in
      let r := dict_setdefault "key_insights" (JArr []) r in
      (let* r :=
         match dict_get "phases" r with
         | Some phases =>
             let* phases' := for_each validate_phase phases in
             Ok (dict_set "phases" phases' r)
         | None => Ok r
         end in
       let r := dict_setdefault "benchmarks" (JObj []) r in
       let* r :=
         match dict_get "benchmarks" r with
         | Some (JObj b) =>
             let b := fold_left (fun b key => dict_setdefault key JNull b)
                        benchmark_keys b in
             Ok (dict_set "benchmarks" (JObj b) r)
         | _ => Raise AttributeError
         end in
       Ok (JObj (dict_set "_meta"
                   (JObj [("extracted_at", JStr now); ("version", JStr "1.0")]) r)))%res
  | _ => Raise TypeError
  end.

Section Parse.

(** json.loads of the standard library: it returns the parsed value or
    raises.  Besides JSONDecodeError for a text that is not JSON it raises
    ValueError for an integer literal beyond the interpreter's digit limit
    and RecursionError for a text nested too deeply. *)
Variable json_loads : string -> result json.

(** [parse_rubric_json] (lines 10-41).  The except clause (line 35) catches
    JSONDecodeError alone and raises a new ValueError in its place. *)
Definition parse_rubric_json (now : string) (content : string) : result json :=
  let content := strip (extract_fenced content) in
  match json_loads content with
  | Ok rubric => _validate_rubric now rubric
  | Raise JSONDecodeError => Raise ValueError
  | Raise e => Raise e
  end.

End Parse.

(** [generate_rubric_id] (lines 85-93).  The class [^a-zA-Z0-9\s] deletes
    every code point that [keep_char] does not accept. *)
Definition keep_char (c : N) : bool :=
  Unicode.is_ascii_lower c || Unicode.is_ascii_upper c || Unicode.is_ascii_digit c
  || Unicode.is_space c.

Definition generate_rubric_id {A} (title : Unicode.text) (author : A)
    : Unicode.text :=
  let clean := List.filter keep_char (Unicode.lower title) in
  let clean := Unicode.sub_ws_runs false (Unicode.strip clean) in
  let clean := take 50 clean in
  clean.

End RubricParser.

(** ** utils/youtube.py *)

Module Youtube.

(** Lines 150-162: where the window that starts at [start] ends. *)
Definition window_end (transcript : string) (chunk_size start : Z) : Z :=
  let end_ := start + chunk_size in
  if end_ <? len transcript then
    let newline_pos := rfind transcript nl (end_ - 200) end_ in
    if negb (newline_pos =? -1) then newline_pos + 1
    else
      let sentence_end := rfind transcript ". " (end_ - 200) end_ in
      if negb (sentence_end =? -1) then sentence_end + 2 else end_
  else end_.

(** The while loop (lines 149-165).  Python's loop need not terminate, so
    the embedding counts iterations down from [fuel]; [None] means that
    the fuel ran out before the loop condition became false. *)
Fixpoint chunk_loop (fuel : nat) (transcript : string) (chunk_size overlap : Z)
    (start : Z) (chunks : list string) : option (list string) :=
  match fuel with
  | O => None
  | S fuel' =>
      if start <? len transcript then
        let end_ := window_end transcript chunk_size start in
        chunk_loop fuel' transcript chunk_size overlap (end_ - overlap)
          (chunks ++ [strip (slice transcript start end_)])
      else Some chunks
  end.

(** [chunk_transcript] (lines 131-167). *)
Definition chunk_transcript (fuel : nat) (transcript : string)
    (chunk_size overlap : Z) : option (list string) :=
  if len transcript <=? chunk_size then Some [transcript]
  else chunk_loop fuel transcript chunk_size overlap 0 [].

(** The windows [(start, end)] the loop goes through, in order: the same
    recursion as [chunk_loop], keeping the bounds instead of the text. *)
Fixpoint windows (fuel : nat) (transcript : string) (chunk_size overlap : Z)
    (start : Z) : option (list (Z * Z)) :=
  match fuel with
  | O => None
  | S fuel' =>
      if start <? len transcript then
        let end_ := window_end transcript chunk_size start in
        option_map (cons (start, end_))
          (windows fuel' transcript chunk_size overlap (end_ - overlap))
      else Some []
  end.

End Youtube.

(** ** utils/llm_client.py *)

Module LLM.

(** The process environment, as os.getenv reads it. *)
Definition getenv (env : gmap string string) (name default : string) : string :=
  match env !! name with
  | Some v => v
  | None => default
  end.

(** The object the OpenAI constructor returns. *)
Record Client : Set := {
  api_key : string;
  base_url : option string
}.

(** The attributes of an [LLMClient]; [None] is Python's None. *)
Record LLMClient : Set := {
  provider : option string;
  client : option Client;
  model : option string
}.

Definition unconfigured : LLMClient :=
  {| provider := None; client := None; model := None |}.

Section Init.

(** The constructor of the openai package: [None] when it raises. *)
Variable OpenAI : string -> option string -> option Client.

(** Lines 38-49: the OpenAI fallback. *)
Definition init_openai (env : gmap string string) : LLMClient :=
  let openai_key := getenv env "OPENAI_API_KEY" "" in
  if nonempty openai_key then
    match OpenAI openai_key None with
    | Some c =>
        {| provider := Some "openai"; client := Some c;
           model := Some (getenv env "AI_MODEL" "gpt-4o-mini") |}
    | None => unconfigured
    end
  else unconfigured.

(** [LLMClient._init_client] (lines 18-49), from the state that [__init__]
    sets (all three attributes None). *)
Definition _init_client (env : gmap string string) : LLMClient :=
  let zai_key := getenv env "ZAI_API_KEY" "" in
  let provider_pref := getenv env "AI_PROVIDER" "auto" in
  if (String.eqb provider_pref "zai" || String.eqb provider_pref "auto")
     && nonempty zai_key then
    match OpenAI zai_key
            (Some (getenv env "ZAI_BASE_URL" "https://api.z.ai/api/paas/v4/")) with
    | Some c =>
        {| provider := Some "zai"; client := Some c;
           model := Some (getenv env "AI_MODEL" "glm-4.6") |}
    | None => init_openai env
    end
  else init_openai env.

End Init.

(** One chat message of a response: its content (None or text) and, when the
    attribute exists, its reasoning_content. *)
Record message : Set := {
  content : option string;
  reasoning_content : option (option string)
}.

(** What chat.completions.create does: raise (with the text of the exception)
    or return choices and, possibly, token usage. *)
Inductive reply : Set :=
| ApiRaises (msg : string)
| ApiResponse (choices : list message) (usage : option (Z * Z)).

Section Complete.

(** The type of the temperature (a float that is only passed on). *)
Variable float : Type.

Record request : Type := {
  req_client : Client;
  req_model : option string;
  req_messages : list (string * string);
  req_temperature : float;
  req_max_tokens : Z;
  req_json_format : bool;
  req_thinking_disabled : bool
}.

(** The outside world: the requests sent so far and, as a ghost counter, how
    often [complete] was entered. *)
Record world : Type := {
  sent : list request;
  calls : nat
}.

(** The remote service: its reply to the last request of a history. *)
Variable service : list request -> reply.

Definition opt_json (o : option string) : json :=
  match o with
  | Some s => JStr s
  | None => JNull
  end.

Definition opt_truthy (o : option string) : bool :=
  match o with
  | Some s => nonempty s
  | None => false
  end.

Definition failure (msg : string) : json :=
  JObj [("success", JBool false); ("error", JStr msg); ("content", JNull)].

(** [LLMClient.complete] (lines 55-116). *)
Definition complete (self : LLMClient) (prompt : string)
    (system_prompt : option string) (temperature : float) (max_tokens : Z)
    (json_mode : bool) (w : world) : json * world :=
  let w := {| sent := sent w; calls := S (calls w) |} in
  match client self with
  | None => (failure "LLM not configured", w)
  | Some c =>
      let messages :=
        app (match system_prompt with
             | Some s => if nonempty s then [("system", s)] else []
             | None => []
             end)
            [("user", prompt)] in
      let params :=
        {| req_client := c; req_model := model self; req_messages := messages;
           req_temperature := temperature; req_max_tokens := max_tokens;
           req_json_format :=
             json_mode && bool_decide (provider self = Some "openai");
           req_thinking_disabled := bool_decide (provider self = Some "zai") |} in
      let w := {| sent := app (sent w) [params]; calls := calls w |} in
      match service (sent w) with
      | ApiRaises msg => (failure msg, w)
      | ApiResponse [] _ => (failure "list index out of range", w)
      | ApiResponse (m :: _) usage =>
          let content :=
            match reasoning_content m with
            | Some r => if opt_truthy (content m) then content m else r
            | None => content m
            end in
          (JObj [("success", JBool true); ("content", opt_json content);
                 ("usage",
                  JObj [("prompt_tokens", JNum (match usage with Some u => fst u | None => 0 end));
                        ("completion_tokens", JNum (match usage with Some u => snd u | None => 0 end))])],
           w)
      end
  end.

(** [result['success']] as the condition of an if statement: the item must
    exist, and its truth value decides. *)
Definition success_of (r : json) : result bool :=
  match r with
  | JObj d =>
      match dict_get "success" d with
      | Some v => Ok (truthy v)
      | None => Raise KeyError
      end
  | _ => Raise TypeError
  end.

(** The for loop of [complete_with_retry] with [n] iterations left;
    [last_result] is the local variable result, unbound before the first
    iteration. *)
Fixpoint retry_loop (n : nat) (self : LLMClient) (prompt : string)
    (system_prompt : option string) (temperature : float) (max_tokens : Z)
    (json_mode : bool) (last_result : option json) (w : world)
    : result json * world :=
  match n with
  | O =>
      (match last_result with
       | Some r => Ok r
       | None => Raise UnboundLocalError
       end, w)
  | S n' =>
      let '(r, w') :=
        complete self prompt system_prompt temperature max_tokens json_mode w in
      match success_of r with
      | Ok true => (Ok r, w')
      | Ok false =>
          retry_loop n' self prompt system_prompt temperature max_tokens
            json_mode (Some r) w'
      | Raise e => (Raise e, w')
      end
  end.

(** [LLMClient.complete_with_retry] (lines 118-132).  [retries] is None when
    the caller leaves the argument out, and is 2 then; range(retries + 1)
    has [Z.to_nat (retries + 1)] elements. *)
Definition complete_with_retry (self : LLMClient) (prompt : string)
    (system_prompt : option string) (retries : option Z) (temperature : float)
    (max_tokens : Z) (json_mode : bool) (w : world) : result json * world :=
  let retries := default 2 retries in
  retry_loop (Z.to_nat (retries + 1)) self prompt system_prompt temperature
    max_tokens json_mode None w.

End Complete.

Arguments sent {float} w.
Arguments calls {float} w.
Arguments Build_world {float} sent calls.
Arguments complete {float} service self prompt system_prompt temperature
  max_tokens json_mode w.
Arguments retry_loop {float} service n self prompt system_prompt temperature
  max_tokens json_mode last_result w.
Arguments complete_with_retry {float} service self prompt system_prompt retries
  temperature max_tokens json_mode w.

End LLM.

(** ** The object store

    Lists and dicts are objects with an identity: a variable, a list element
    or a dict entry holds a reference, and two references to one object see
    each other's updates. *)

Definition loc := nat.

Inductive value : Set :=
| VNone
| VBool (b : bool)
| VInt (n : Z)
| VStr (s : string)
| VRef (l : loc).

Inductive object : Set :=
| OList (xs : list value)
| ODict (kvs : list (string * value)).

Abbreviation store := (list object).

(** A computation over the store that returns or raises. *)
Definition M (A : Type) : Type := store -> result (A * store).

Definition ret {A} (a : A) : M A := fun h => Ok (a, h).

Definition raise {A} (e : exn) : M A := fun _ => Raise e.

Definition bind {A B} (m : M A) (k : A -> M B) : M B :=
  fun h =>
    match m h with
    | Ok (a, h') => k a h'
    | Raise e => Raise e
    end.

Declare Scope store_scope.
Delimit Scope store_scope with st.
Notation "'let*' x ':=' m 'in' k" := (bind m (fun x => k))
  (at level 10, x name, m at level 100, k at level 200) : store_scope.

(** [for x in xs: acc = body(acc, x)] over a Python list already read. *)
Fixpoint foldM {A B} (body : A -> B -> M A) (acc : A) (xs : list B) : M A :=
  match xs with
  | [] => ret acc
  | x :: xs' => (let* acc' := body acc x in foldM body acc' xs')%st
  end.

(** A new object; its reference is the next free index. *)
Definition alloc (o : object) : M value :=
  fun h => Ok (VRef (List.length h), app h [o]).

(** The dict behind [v], for a method that only dicts have (get, copy,
    items): any other value raises AttributeError. *)
Definition as_dict (v : value) : M (list (string * value)) :=
  fun h =>
    match v with
    | VRef l =>
        match h !! l with
        | Some (ODict kvs) => Ok (kvs, h)
        | _ => Raise AttributeError
        end
    | _ => Raise AttributeError
    end.

Fixpoint vchars (s : string) : list value :=
  match s with
  | EmptyString => []
  | String c s' => VStr (String c EmptyString) :: vchars s'
  end.

(** The elements a for loop over [v] goes through: those of a list, the keys
    of a dict, the characters of a str.  The object is read when the loop
    starts; no loop below changes the object it is iterating over. *)
Definition iterate (v : value) : M (list value) :=
  fun h =>
    match v with
    | VRef l =>
        match h !! l with
        | Some (OList xs) => Ok (xs, h)
        | Some (ODict kvs) => Ok (map (fun kv => VStr (fst kv)) kvs, h)
        | None => Raise TypeError
        end
    | VStr s => Ok (vchars s, h)
    | _ => Raise TypeError
    end.

(** [v[k]] for a str key: KeyError on a dict without it, TypeError on
    anything that is not a dict. *)
Definition getitem (v : value) (k : string) : M value :=
  fun h =>
    match v with
    | VRef l =>
        match h !! l with
        | Some (ODict kvs) =>
            match dict_get k kvs with
            | Some x => Ok (x, h)
            | None => Raise KeyError
            end
        | _ => Raise TypeError
        end
    | _ => Raise TypeError
    end.

(** [v[k] = x] for a str key. *)
Definition setitem (v : value) (k : string) (x : value) : M unit :=
  fun h =>
    match v with
    | VRef l =>
        match h !! l with
        | Some (ODict kvs) => Ok (tt, <[l := ODict (dict_set k x kvs)]> h)
        | _ => Raise TypeError
        end
    | _ => Raise TypeError
    end.

(** [v.append(x)] *)
Definition list_append (v : value) (x : value) : M unit :=
  fun h =>
    match v with
    | VRef l =>
        match h !! l with
        | Some (OList xs) => Ok (tt, <[l := OList (app xs [x])]> h)
        | _ => Raise AttributeError
        end
    | _ => Raise AttributeError
    end.

(** Lists and dicts cannot be members of a set. *)
Definition hashable (v : value) : bool :=
  match v with
  | VRef _ => false
  | _ => true
  end.

(** [==] on hashable values; True and False equal 1 and 0. *)
Definition py_eqb (a b : value) : bool :=
  match a, b with
  | VNone, VNone => true
  | VBool x, VBool y => Bool.eqb x y
  | VInt x, VInt y => x =? y
  | VBool x, VInt y | VInt y, VBool x => y =? (if x then 1 else 0)
  | VStr x, VStr y => String.eqb x y
  | _, _ => false
  end.

(** A Python set of hashable values, in insertion order. *)
Definition set_mem (x : value) (s : list value) : M bool :=
  if hashable x then ret (existsb (py_eqb x) s) else raise TypeError.

Definition set_add (x : value) (s : list value) : M (list value) :=
  if hashable x
  then ret (if existsb (py_eqb x) s then s else app s [x])
  else raise TypeError.

(** ** merge_rubrics over the store *)

Module Merge.

Local Open Scope store_scope.

(** [d.get(field, [])] as the iterable of a for loop or a comprehension.
    The default list is a temporary that nothing else can reach. *)
Definition get_iter (d : value) (field : string) : M (list value) :=
  let* kvs := as_dict d in
  match dict_get field kvs with
  | Some v => iterate v
  | None => ret []
  end.

(** The pattern written three times in the source, for phases by 'name'
    (lines 112-117), key_insights by the insight itself (lines 120-125) and
    decision_points by 'trigger' (lines 134-139):

      existing = {key(x) for x in merged.get(field, [])}
      for rubric in rubrics[1:]:
          for x in rubric.get(field, []):
              if key(x) not in existing:
                  merged[field].append(x)
                  existing.add(key(x))                                     *)
Definition merge_unique (field : string) (key : value -> M value)
    (merged : value) (rest : list value) : M unit :=
  let* current := get_iter merged field in
  let* existing :=
    foldM (fun acc x => let* k := key x in set_add k acc) [] current in
  let* _ :=
    foldM (fun existing rubric =>
      let* items := get_iter rubric field in
      foldM (fun existing x =>
        let* k := key x in
        let* seen := set_mem k existing in
        if seen then ret existing
        else
          let* target := getitem merged field in
          let* _ := list_append target x in
          let* k' := key x in
          set_add k' existing) existing items) existing rest in
  ret tt.

(** Lines 128-131.  [rubric.get('benchmarks', {}).items()] is read when the
    inner loop starts. *)
Definition merge_benchmarks (merged : value) (rest : list value) : M unit :=
  let* _ :=
    foldM (fun (_ : unit) rubric =>
      let* r := as_dict rubric in
      let* items :=
        match dict_get "benchmarks" r with
        | Some b => as_dict b
        | None => ret []
        end in
      foldM (fun (_ : unit) (kv : string * value) =>
        let '(key, v) := kv in
        match v with
        | VNone => ret tt
        | _ =>
            let* m := as_dict merged in
            let* current :=
              match dict_get "benchmarks" m with
              | Some b => let* bd := as_dict b in ret (dict_get key bd)
              | None => ret None
              end in
            match current with
            | Some VNone | None =>
                let* target := getitem merged "benchmarks" in
                setitem target key v
            | Some _ => ret tt
            end
        end) tt items) tt rest in
  ret tt.

(** [merge_rubrics] (lines 96-141).  [rubrics] is the caller's list, which
    the function only reads. *)
Definition merge_rubrics (rubrics : list value) : M value :=
  match rubrics with
  | [] => alloc (ODict [])
  | [only] => ret only
  | first :: rest =>
      let* d := as_dict first in
      let* merged := alloc (ODict d) in
      let* _ := merge_unique "phases" (fun p => getitem p "name") merged rest in
      let* _ := merge_unique "key_insights" ret merged rest in
      let* _ := merge_benchmarks merged rest in
      let* _ :=
        merge_unique "decision_points" (fun dp => getitem dp "trigger") merged rest in
      ret merged
  end.

End Merge.

(** ** JSON trees in the store

    [load] builds the objects of a tree as json.loads does: every list and
    dict is a new object, children before their parent.  [read_back] reads the
    tree below a value, down to [depth] nested containers. *)

Fixpoint load (t : json) (h : store) : value * store :=
  match t with
  | JNull => (VNone, h)
  | JBool b => (VBool b, h)
  | JNum n => (VInt n, h)
  | JStr s => (VStr s, h)
  | JArr xs =>
      let '(vs, h') :=
        (fix load_items (xs : list json) (h : store) : list value * store :=
           match xs with
           | [] => ([], h)
           | x :: xs' =>
               let '(v, h1) := load x h in
               let '(vs, h2) := load_items xs' h1 in
               (v :: vs, h2)
           end) xs h in
      (VRef (List.length h'), app h' [OList vs])
  | JObj kvs =>
      let '(vs, h') :=
        (fix load_entries (kvs : list (string * json)) (h : store)
           : list (string * value) * store :=
           match kvs with
           | [] => ([], h)
           | (k, x) :: kvs' =>
               let '(v, h1) := load x h in
               let '(vs, h2) := load_entries kvs' h1 in
               ((k, v) :: vs, h2)
           end) kvs h in
      (VRef (List.length h'), app h' [ODict vs])
  end.

Fixpoint load_all (ts : list json) (h : store) : list value * store :=
  match ts with
  | [] => ([], h)
  | t :: ts' =>
      let '(v, h1) := load t h in
      let '(vs, h2) := load_all ts' h1 in
      (v :: vs, h2)
  end.

Fixpoint read_back (depth : nat) (h : store) (v : value) : option json :=
  match v with
  | VNone => Some JNull
  | VBool b => Some (JBool b)
  | VInt n => Some (JNum n)
  | VStr s => Some (JStr s)
  | VRef l =>
      match depth with
      | O => None
      | S d =>
          match h !! l with
          | Some (OList xs) => JArr <$> mapM (read_back d h) xs
          | Some (ODict kvs) =>
              JObj <$> mapM (fun kv => pair (fst kv) <$> read_back d h (snd kv)) kvs
          | None => None
          end
      end
  end.

(** [d[field]] read back as a tree. *)
Definition read_field (depth : nat) (h : store) (d : value) (field : string)
    : option json :=
  match d with
  | VRef l =>
      match h !! l with
      | Some (ODict kvs) =>
          match dict_get field kvs with
          | Some v => read_back depth h v
          | None => None
          end
      | _ => None
      end
  | _ => None
  end.

(** ** pathlib: pure POSIX paths

    A path object holds its root (empty, one slash or two) and its
    components; the constructor drops empty components and single dots. *)

Module Pathlib.

Record Path : Set := {
  root : Unicode.text;
  parts : list Unicode.text
}.

(** [s.split('/')]; the slash is code point 47. *)
Fixpoint split_sep (s : Unicode.text) : list Unicode.text :=
  match s with
  | [] => [[]]
  | c :: s' =>
      if (c =? 47)%N then [] :: split_sep s'
      else match split_sep s' with
           | cur :: rest => (c :: cur) :: rest
           | [] => [[c]]
           end
  end.

(** [s.lstrip('/')] *)
Fixpoint lstrip_sep (s : Unicode.text) : Unicode.text :=
  match s with
  | [] => []
  | c :: s' => if (c =? 47)%N then lstrip_sep s' else s
  end.

(** The root of a text and what follows it: exactly two leading slashes are
    kept, any other number of them is one slash. *)
Definition splitroot (s : Unicode.text) : Unicode.text * Unicode.text :=
  let rest := lstrip_sep s in
  let slashes := (List.length s - List.length rest)%nat in
  match slashes with
  | O => ([], s)
  | 2%nat => ([47; 47]%N, rest)
  | _ => ([47]%N, rest)
  end.

Definition is_component (x : Unicode.text) : bool :=
  match x with
  | [] => false
  | [c] => negb (c =? 46)%N
  | _ => true
  end.

(** [Path(s)] *)
Definition parse (s : Unicode.text) : Path :=
  let '(root, rel) := splitroot s in
  {| root := root; parts := List.filter is_component (split_sep rel) |}.

(** [p / s] *)
Definition joinpath (p : Path) (s : Unicode.text) : Path :=
  let q := parse s in
  match root q with
  | [] => {| root := root p; parts := app (parts p) (parts q) |}
  | _ => q
  end.

(** ['/'.join(xs)] *)
Fixpoint join_sep (xs : list Unicode.text) : Unicode.text :=
  match xs with
  | [] => []
  | [x] => x
  | x :: xs' => app x (47%N :: join_sep xs')
  end.

(** [str(p)], which is also what open() receives; the empty path is the
    dot (code point 46). *)
Definition to_str (p : Path) : Unicode.text :=
  match app (root p) (join_sep (parts p)) with
  | [] => [46]%N
  | s => s
  end.

(** [p.parent] and [p.name] *)
Definition parent (p : Path) : Path :=
  {| root := root p; parts := removelast (parts p) |}.

Definition name (p : Path) : Unicode.text := List.last (parts p) [].

End Pathlib.

(** ** extract_rubric.py: save_rubric *)

Module ExtractRubric.

Import Pathlib.

(** The part of the machine that [save_rubric] acts on: the directories and
    the files of the file system, each under the text of its path, and the
    lines printed so far.  A file holds the JSON value dumped into it. *)
Record world : Type := {
  dirs : gset Unicode.text;
  files : gmap Unicode.text json;
  stdout : list Unicode.text
}.

Section Save.

(** The directory of the script, [Path(__file__).parent]. *)
Variable script_dir : Path.

(** The operating system: the exception, if any, with which os.mkdir, open
    for writing and print refuse a request in a given world. *)
Variable mkdir_fails : Unicode.text -> world -> option exn.
Variable open_fails : Unicode.text -> world -> option exn.
Variable print_fails : Unicode.text -> world -> option exn.

(** [p.is_dir()] *)
Definition is_dir (p : Path) (w : world) : bool :=
  bool_decide (to_str p ∈ dirs w).

(** [p.mkdir(exist_ok=True)]: FileNotFoundError (no parent directory) is
    raised again; any other OSError is dropped when the directory is there. *)
Definition mkdir_exist_ok (p : Path) (w : world) : result unit * world :=
  match mkdir_fails (to_str p) w with
  | None =>
      (Ok tt, {| dirs := {[to_str p]} ∪ dirs w; files := files w;
                 stdout := stdout w |})
  | Some FileNotFoundError => (Raise FileNotFoundError, w)
  | Some e => if is_os_error e && is_dir p w then (Ok tt, w) else (Raise e, w)
  end.

(** Lines 137-141: open the file, dump the rubric, print, return the path. *)
Definition write_rubric (filepath : Path) (rubric : json) (w : world)
    : result Path * world :=
  match open_fails (to_str filepath) w with
  | Some e => (Raise e, w)
  | None =>
      let w := {| dirs := dirs w;
                  files := <[to_str filepath := rubric]> (files w);
                  stdout := stdout w |} in
      let line :=
        app (9989%N :: Unicode.of_string " Saved rubric to: ") (to_str filepath) in
      match print_fails line w with
      | Some e => (Raise e, w)
      | None =>
          (Ok filepath,
           {| dirs := dirs w; files := files w;
              stdout := app (stdout w) [line] |})
      end
  end.

(** [save_rubric] (lines 119-141).  Returns the path or raises, together
    with the caller's rubric, which carries its id once line 126 has run,
    and the world. *)
Definition save_rubric (rubric : json) (output_path : option Unicode.text)
    (w : world) : result Path * json * world :=
  match rubric with
  | JObj r =>
      let title := default (JStr "untitled") (dict_get "title" r) in
      let author := default (JStr "unknown") (dict_get "video_author" r) in
      match title with
      | JStr t =>
          let rubric_id :=
            RubricParser.generate_rubric_id (Unicode.of_string t) author in
          let rubric := JObj (dict_set "id" (JStr (Unicode.to_string rubric_id)) r) in
          match output_path with
          | Some (c :: p) =>
              let '(res, w) := write_rubric (parse (c :: p)) rubric w in
              (res, rubric, w)
          | _ =>
              let library_dir :=
                joinpath script_dir (Unicode.of_string "rubric_library") in
              match mkdir_exist_ok library_dir w with
              | (Raise e, w) => (Raise e, rubric, w)
              | (Ok _, w) =>
                  let filepath :=
                    joinpath library_dir
                      (app rubric_id (Unicode.of_string ".json")) in
                  let '(res, w) := write_rubric filepath rubric w in
                  (res, rubric, w)
              end
          end
      | _ => (Raise AttributeError, rubric, w)
      end
  | _ => (Raise AttributeError, rubric, w)
  end.

End Save.

End ExtractRubric.

(** ** Vocabulary of the statements

    The definitions below are not part of the program: they name the values,
    shapes and store layouts that the theorems about it speak of, and the
    sample inputs on which the theorems are instantiated. *)

Import RubricParser.
Import Youtube.
Import Merge.

(** The value a required field has after the first loop. *)
Definition required_value (o : option json) : json :=
  match o with
  | Some v => if truthy v then v else JStr "unknown"
  | None => JStr "unknown"
  end.

(** The rubric after the required fields and the six setdefault calls. *)
Definition with_defaults (r : dict) : dict :=
  dict_setdefault "key_insights" (JArr [])
    (dict_setdefault "counters" (JObj [])
       (dict_setdefault "decision_points" (JArr [])
          (dict_setdefault "phases" (JArr [])
             (dict_setdefault "map_types" (JArr [JStr "any"])
                (dict_setdefault "civilizations" (JArr [])
                   (fold_left (fun r field => fill_required field r)
                      ["title"; "difficulty"; "archetype"] r)))))).

Definition fill_benchmarks (b : dict) : dict :=
  fold_left (fun b key => dict_setdefault key JNull b) benchmark_keys b.

Definition meta (now : string) : json :=
  JObj [("extracted_at", JStr now); ("version", JStr "1.0")].

(** The elements a for loop over a JSON value goes through. *)
Definition elements (it : json) : list json :=
  match it with
  | JArr xs => xs
  | JObj kvs => map (fun kv => JStr (fst kv)) kvs
  | JStr s => chars s
  | _ => []
  end.

Definition is_dict (v : json) : bool :=
  match v with
  | JObj _ => true
  | _ => false
  end.

(** A phase after its three setdefault calls. *)
Definition phase_defaults (p : dict) : dict :=
  dict_setdefault "common_mistakes" (JArr [])
    (dict_setdefault "success_criteria" (JArr [])
       (dict_setdefault "key_actions" (JArr []) p)).

(** The dict that [_validate_rubric] returns for the dict [r], given the
    validated phases and the benchmarks dict [b0] it found or created. *)
Definition validated (now : string) (r : dict) (phases : json) (b0 : dict) : dict :=
  dict_set "_meta" (meta now)
    (dict_set "benchmarks" (JObj (fill_benchmarks b0))
       (dict_setdefault "benchmarks" (JObj [])
          (dict_set "phases" phases (with_defaults r)))).

(** A value a for loop accepts. *)
Definition iterable (it : json) : bool :=
  match it with
  | JArr _ | JObj _ | JStr _ => true
  | _ => false
  end.

(** The loop over [it] meets only elements that satisfy [ok]. *)
Definition loop_shape (ok : json -> bool) (it : json) : bool :=
  iterable it && forallb ok (elements it).

(** A phase the loop body accepts: a dict whose key_actions, when present,
    can be iterated and yields dicts only. *)
Definition phase_shape (p : json) : bool :=
  match p with
  | JObj d => loop_shape is_dict (default (JArr []) (dict_get "key_actions" d))
  | _ => false
  end.

(** A parsed value [_validate_rubric] accepts: a dict whose phases, when
    present, can be iterated and yields accepted phases only, and whose
    benchmarks, when present, is a dict. *)
Definition rubric_shape (t : json) : bool :=
  match t with
  | JObj r =>
      loop_shape phase_shape (default (JArr []) (dict_get "phases" r))
      && is_dict (default (JObj []) (dict_get "benchmarks" r))
  | _ => false
  end.

(** The world after [k] successive calls of [complete] with the same
    arguments, and the result of the call after those. *)
Fixpoint world_after {float : Type} (service : list (LLM.request float) -> LLM.reply)
    (k : nat) (self : LLM.LLMClient) (prompt : string)
    (system_prompt : option string) (temperature : float) (max_tokens : Z)
    (json_mode : bool) (w : LLM.world float) : LLM.world float :=
  match k with
  | O => w
  | S k' =>
      world_after service k' self prompt system_prompt temperature max_tokens
        json_mode
        (snd (LLM.complete service self prompt system_prompt temperature
                max_tokens json_mode w))
  end.

Definition attempt {float : Type} (service : list (LLM.request float) -> LLM.reply)
    (k : nat) (self : LLM.LLMClient) (prompt : string)
    (system_prompt : option string) (temperature : float) (max_tokens : Z)
    (json_mode : bool) (w : LLM.world float) : json :=
  fst (LLM.complete service self prompt system_prompt temperature max_tokens
         json_mode
         (world_after service k self prompt system_prompt temperature max_tokens
            json_mode w)).

(** A code point of a slug: a-z, 0-9 or the underscore. *)
Definition slug_char (c : N) : bool :=
  Unicode.is_ascii_lower c || Unicode.is_ascii_digit c || (c =? 95)%N.

(** The slug as the specification words it: lowercase, delete what is
    neither alphanumeric nor whitespace, replace whitespace runs. *)
Definition slug_as_described (title : Unicode.text) : Unicode.text :=
  Unicode.sub_ws_runs false
    (List.filter RubricParser.keep_char (Unicode.lower title)).

(** The text of a window. *)
Definition chunk_of (t : string) (w : Z * Z) : string :=
  strip (slice t (fst w) (snd w)).

(** The windows follow one another as the loop computes them. *)
Fixpoint chained (t : string) (cs ov : Z) (start : Z) (ws : list (Z * Z)) : Prop :=
  match ws with
  | [] => len t <= start
  | w :: ws' =>
      fst w = start /\ start < len t /\ snd w = window_end t cs start /\
      chained t cs ov (snd w - ov) ws'
  end.

(** A set after [s.add(k)]. *)
Definition set_insert (k : value) (s : list value) : list value :=
  if existsb (py_eqb k) s then s else app s [k].

(** The set [seen] after the keys of [xs] were added to it. *)
Fixpoint seen_after (key : value -> option value) (seen : list value)
    (xs : list value) : list value :=
  match xs with
  | [] => seen
  | x :: xs' =>
      match key x with
      | Some k => seen_after key (set_insert k seen) xs'
      | None => seen_after key seen xs'
      end
  end.

(** The elements of [xs] whose key is neither in [seen] nor the key of an
    earlier element of [xs]: first occurrences, in order. *)
Fixpoint fresh_by (key : value -> option value) (seen : list value)
    (xs : list value) : list value :=
  match xs with
  | [] => []
  | x :: xs' =>
      match key x with
      | Some k =>
          if existsb (py_eqb k) seen then fresh_by key seen xs'
          else x :: fresh_by key (app seen [k]) xs'
      | None => fresh_by key seen xs'
      end
  end.

(** Deduplication by key, keeping the first occurrence. *)
Definition dedup_by (key : value -> option value) (xs : list value) : list value :=
  fresh_by key [] xs.

(** [x[key]] for an element [x] that is a dict in the store. *)
Definition field_of (h : store) (key : string) (x : value) : option value :=
  match x with
  | VRef l =>
      match h !! l with
      | Some (ODict d) => dict_get key d
      | _ => None
      end
  | _ => None
  end.

(** The first value other than None that [items] holds for [key]. *)
Fixpoint first_value (key : string) (items : list (string * value)) : option value :=
  match items with
  | [] => None
  | (k, v) :: items' =>
      if String.eqb key k
      then match v with
           | VNone => first_value key items'
           | _ => Some v
           end
      else first_value key items'
  end.

(** The store while the loops of one merge block run: only the list at
    [p] changes. *)
Definition at_p (h : store) (p : loc) (ys : list value) : store :=
  <[p := OList ys]> h.

(** [x] has a hashable key, which [key] reads without changing the store. *)
Definition keyed (key : value -> M value) (keyf : value -> option value)
    (h : store) (p : loc) (x : value) : Prop :=
  exists k, keyf x = Some k /\ hashable k = true /\
            forall ys, key x (at_p h p ys) = Ok (k, at_p h p ys).

(** [rubric.get(field, [])] yields [items] while the loops run. *)
Definition yields (field : string) (h : store) (p : loc) (rubric : value)
    (items : list value) : Prop :=
  forall ys, get_iter rubric field (at_p h p ys) = Ok (items, at_p h p ys).

(** The benchmarks dict after one item of a later rubric (lines 130-131). *)
Definition bench_update (b : list (string * value)) (kv : string * value)
    : list (string * value) :=
  match snd kv with
  | VNone => b
  | v =>
      match dict_get (fst kv) b with
      | Some VNone | None => dict_set (fst kv) v b
      | Some _ => b
      end
  end.

Definition is_none (v : value) : bool :=
  match v with
  | VNone => true
  | _ => false
  end.

(** The store while the benchmarks loop runs: only the dict at [b] changes. *)
Definition at_b (h : store) (b : loc) (bs : list (string * value)) : store :=
  <[b := ODict bs]> h.

(** [rubric.get('benchmarks', {}).items()] is [items] while the loop runs. *)
Definition bench_yields (h : store) (b : loc) (rubric : value)
    (items : list (string * value)) : Prop :=
  forall bs,
    (let* r := as_dict rubric in
     match dict_get "benchmarks" r with
     | Some bv => as_dict bv
     | None => ret []
     end)%st (at_b h b bs) = Ok (items, at_b h b bs).

(** What a later rubric holds in its four merged fields. *)
Record rubric_view : Set := {
  v_phases : list value;
  v_insights : list value;
  v_benchmarks : list (string * value);
  v_dps : list value
}.

(** [v] refers to the object [o] of [h], at a place that is none of [W]. *)
Definition points_off (W : list loc) (h : store) (v : value) (o : object) : Prop :=
  exists l, v = VRef l /\ (l ∉ W) /\ h !! l = Some o.

(** [r] is a rubric dict with the four fields, its contents being [rv]. *)
Definition has_view (W : list loc) (h : store) (r : value) (rv : rubric_view)
    : Prop :=
  exists d vp vk vb vq,
    points_off W h r (ODict d) /\
    dict_get "phases" d = Some vp /\ points_off W h vp (OList (v_phases rv)) /\
    dict_get "key_insights" d = Some vk /\
    points_off W h vk (OList (v_insights rv)) /\
    dict_get "benchmarks" d = Some vb /\
    points_off W h vb (ODict (v_benchmarks rv)) /\
    dict_get "decision_points" d = Some vq /\
    points_off W h vq (OList (v_dps rv)).

(** [x] is a dict with a hashable value under [key]. *)
Definition keyed_dict (W : list loc) (h : store) (key : string) (x : value)
    : Prop :=
  exists d k, points_off W h x (ODict d) /\ dict_get key d = Some k /\
              hashable k = true.

(** [h'] still holds every object of [h] that is not at a place in [W]. *)
Definition stable (W : list loc) (h h' : store) : Prop :=
  forall l o, l ∉ W -> h !! l = Some o -> h' !! l = Some o.

(** What a for loop makes of the value [it0] it goes through when its body
    turns an element x into y with [R x y]: the elements of a list are
    updated in place, and a dict or str without elements is left alone. *)
Definition looped (R : json -> json -> Prop) (it0 it : json) : Prop :=
  (exists xs ys, it0 = JArr xs /\ it = JArr ys /\ Forall2 R xs ys)
  \/ (it = it0 /\ iterable it0 = true /\ elements it0 = []).

(** The action [a] is the dict [a0] with its importance filled in. *)
Definition action_filled (a0 a : json) : Prop :=
  exists d0 d, a0 = JObj d0 /\ a = JObj d /\
    forall k, dict_get k d =
      if String.eqb k "importance"
      then Some (default (JStr "important") (dict_get "importance" d0))
      else dict_get k d0.

(** The phase [p] is the dict [p0] with its three lists filled in and its
    key actions filled in one by one. *)
Definition phase_filled (p0 p : json) : Prop :=
  exists d0 d actions, p0 = JObj d0 /\ p = JObj d /\
    dict_get "key_actions" d = Some actions /\
    looped action_filled (default (JArr []) (dict_get "key_actions" d0)) actions /\
    dict_get "success_criteria" d
    = Some (default (JArr []) (dict_get "success_criteria" d0)) /\
    dict_get "common_mistakes" d
    = Some (default (JArr []) (dict_get "common_mistakes" d0)) /\
    forall k, k ∉ ["key_actions"; "success_criteria"; "common_mistakes"] ->
      dict_get k d = dict_get k d0.

(** The line that [save_rubric] prints for a path: a check mark (U+2705)
    and the text of the path. *)
Definition saved_line (path : Pathlib.Path) : Unicode.text :=
  app (9989%N :: Unicode.of_string " Saved rubric to: ") (Pathlib.to_str path).

(** The world once [rubric] is dumped to [path], and once the line is
    printed too. *)
Definition with_file (path : Pathlib.Path) (rubric : json)
    (w : ExtractRubric.world) : ExtractRubric.world :=
  {| ExtractRubric.dirs := ExtractRubric.dirs w;
     ExtractRubric.files := <[Pathlib.to_str path := rubric]> (ExtractRubric.files w);
     ExtractRubric.stdout := ExtractRubric.stdout w |}.

Definition with_dir (dir : Pathlib.Path) (w : ExtractRubric.world)
    : ExtractRubric.world :=
  {| ExtractRubric.dirs := {[Pathlib.to_str dir]} ∪ ExtractRubric.dirs w;
     ExtractRubric.files := ExtractRubric.files w;
     ExtractRubric.stdout := ExtractRubric.stdout w |}.

Definition with_line (line : Unicode.text) (w : ExtractRubric.world)
    : ExtractRubric.world :=
  {| ExtractRubric.dirs := ExtractRubric.dirs w;
     ExtractRubric.files := ExtractRubric.files w;
     ExtractRubric.stdout := app (ExtractRubric.stdout w) [line] |}.

Fixpoint str_repeat (c : ascii) (n : nat) : string :=
  match n with
  | O => EmptyString
  | S n' => String c (str_repeat c n')
  end.

(** The double quote, and a name in double quotes. *)
Definition dq : string := String (ascii_of_nat 34) EmptyString.

Definition quoted (s : string) : string := dq ++ s ++ dq.

(** A response of the model: one phase with one action that has no
    importance, and the value json.loads gives for it. *)
Definition sample_response : string :=
  "{" ++ quoted "title" ++ ": " ++ quoted "Fast Castle" ++ ", "
  ++ quoted "phases" ++ ": [{" ++ quoted "name" ++ ": " ++ quoted "Dark Age"
  ++ ", " ++ quoted "key_actions" ++ ": [{" ++ quoted "action" ++ ": "
  ++ quoted "Build houses" ++ "}]}], "
  ++ quoted "benchmarks" ++ ": {" ++ quoted "feudal_age" ++ ": 300}}".

Definition sample_parsed : json :=
  JObj [("title", JStr "Fast Castle");
        ("phases",
         JArr [JObj [("name", JStr "Dark Age");
                     ("key_actions", JArr [JObj [("action", JStr "Build houses")]])]]);
        ("benchmarks", JObj [("feudal_age", JNum 300)])].

Fixpoint all_digits (s : string) : bool :=
  match s with
  | EmptyString => true
  | String c s' =>
      (Nat.leb 48 (nat_of_ascii c) && Nat.leb (nat_of_ascii c) 57) && all_digits s'
  end.

(** A stand-in for json.loads that knows three texts and the limit of 4300
    digits on an integer literal. *)
Definition sample_loads (s : string) : result json :=
  if String.eqb s "{}" then Ok (JObj [])
  else if String.eqb s "[]" then Ok (JArr [])
  else if String.eqb s sample_response then Ok sample_parsed
  else if nonempty s && all_digits s && Nat.ltb 4300 (String.length s)
  then Raise ValueError
  else Raise JSONDecodeError.

Definition phase_named (name : string) : json := JObj [("name", JStr name)].

Definition sample_rubric (phases : list json) (insights : list json)
    (benchmarks : dict) (dps : list json) : json :=
  JObj [("phases", JArr phases); ("key_insights", JArr insights);
        ("benchmarks", JObj benchmarks); ("decision_points", JArr dps)].

(** Two rubrics as two chunks of one video could give them. *)
Definition rubric_a : json :=
  sample_rubric [phase_named "Dark Age"] [JStr "scout early"]
    [("feudal_age", JNull)] [].

Definition rubric_b : json :=
  sample_rubric [phase_named "Dark Age"; phase_named "Feudal Age"]
    [JStr "scout early"; JStr "wall up"]
    [("feudal_age", JNum 300)] [JObj [("trigger", JStr "rush")]].

(** A first rubric in which the model named two phases alike. *)
Definition rubric_dup : json :=
  sample_rubric [phase_named "Dark Age"; phase_named "Dark Age"] [] [] [].

(** The name of a phase, and deduplication by it on JSON lists. *)
Definition json_name (p : json) : option string :=
  match p with
  | JObj d => match dict_get "name" d with Some (JStr s) => Some s | _ => None end
  | _ => None
  end.

Fixpoint json_dedup (key : json -> option string) (seen : list string)
    (xs : list json) : list json :=
  match xs with
  | [] => []
  | x :: xs' =>
      match key x with
      | Some k =>
          if existsb (String.eqb k) seen then json_dedup key seen xs'
          else x :: json_dedup key (k :: seen) xs'
      | None => x :: json_dedup key seen xs'
      end
  end.

(** 149 letters, a newline, 151 letters. *)
Definition looping_transcript : string :=
  str_repeat "a" 149 ++ nl ++ str_repeat "a" 151.

(** A constructor that raises whenever a base URL is given. *)
Definition openai_only (key : string) (url : option string) : option LLM.Client :=
  match url with
  | Some _ => None
  | None => Some {| LLM.api_key := key; LLM.base_url := None |}
  end.

Definition both_keys : gmap string string :=
  <["ZAI_API_KEY" := "zk"]> (<["OPENAI_API_KEY" := "ok"]> ∅).

Definition validated_empty : dict :=
  validated "2024-01-01T00:00:00" [] (JArr []) [].

(** A service that is down, and a client without configuration. *)
Definition service_down (history : list (LLM.request unit)) : LLM.reply :=
  LLM.ApiRaises "connection refused".

Definition fresh_world : LLM.world unit := {| LLM.sent := []; LLM.calls := 0 |}.

Definition sample_transcript : string := str_repeat "a" 250.

(** The store that holds [rubric_a] and [rubric_b], and where their parts
    lie in it. *)
Definition sample_store : store := snd (load_all [rubric_a; rubric_b] []).

Definition view_b : rubric_view :=
  {| v_phases := [VRef 6%nat; VRef 7%nat];
     v_insights := [VStr "scout early"; VStr "wall up"];
     v_benchmarks := [("feudal_age", VInt 300)];
     v_dps := [VRef 11%nat] |}.

(** What [parse_rubric_json] returns for [sample_response]. *)
Definition sample_validated : json :=
  JObj [("title", JStr "Fast Castle");
        ("phases",
         JArr [JObj [("name", JStr "Dark Age");
                     ("key_actions",
                      JArr [JObj [("action", JStr "Build houses");
                                  ("importance", JStr "important")]]);
                     ("success_criteria", JArr []);
                     ("common_mistakes", JArr [])]]);
        ("benchmarks",
         JObj [("feudal_age", JNum 300); ("castle_age", JNull);
               ("imperial_age", JNull); ("second_tc", JNull); ("third_tc", JNull);
               ("villagers_at_10min", JNull); ("villagers_at_castle", JNull)]);
        ("difficulty", JStr "unknown"); ("archetype", JStr "unknown");
        ("civilizations", JArr []); ("map_types", JArr [JStr "any"]);
        ("decision_points", JArr []); ("counters", JObj []);
        ("key_insights", JArr []);
        ("_meta", JObj [("extracted_at", JStr "2024-01-01T00:00:00");
                        ("version", JStr "1.0")])].

(** An operating system that refuses what POSIX refuses for lack of a
    directory: a new directory or file needs its parent directory, a
    directory cannot be made twice or opened as a file.  It prints
    anything. *)
Definition posix_mkdir_fails (p : Unicode.text) (w : ExtractRubric.world)
    : option exn :=
  if bool_decide (p ∈ ExtractRubric.dirs w) then Some FileExistsError
  else if bool_decide
            (Pathlib.to_str (Pathlib.parent (Pathlib.parse p)) ∈ ExtractRubric.dirs w)
  then None else Some FileNotFoundError.

Definition posix_open_fails (p : Unicode.text) (w : ExtractRubric.world)
    : option exn :=
  if bool_decide (p ∈ ExtractRubric.dirs w) then Some IsADirectoryError
  else if bool_decide
            (Pathlib.to_str (Pathlib.parent (Pathlib.parse p)) ∈ ExtractRubric.dirs w)
  then None else Some FileNotFoundError.

Definition print_works (line : Unicode.text) (w : ExtractRubric.world)
    : option exn := None.

(** A terminal that cannot encode the check mark. *)
Definition ascii_terminal (line : Unicode.text) (w : ExtractRubric.world)
    : option exn :=
  if forallb (fun c => (c <? 128)%N) line then None else Some UnicodeEncodeError.

(** The script lies in src, below the working directory; nothing is saved
    yet. *)
Definition src_dir : Pathlib.Path := Pathlib.parse (Unicode.of_string "src").

Definition empty_world : ExtractRubric.world :=
  {| ExtractRubric.dirs := {[Unicode.of_string "."; Unicode.of_string "src"]};
     ExtractRubric.files := ∅;
     ExtractRubric.stdout := [] |}.

Definition guide : dict := [("title", JStr "Fast Castle Guide")].

Definition guide_saved : json :=
  JObj [("title", JStr "Fast Castle Guide"); ("id", JStr "fast_castle_guide")].

(** * Properties *)

Lemma dict_get_set_eq {V} k (v : V) d : dict_get k (dict_set k v d) = Some v.
Proof.
  induction d as [|[k' v'] d IH]; simpl.
  - by rewrite String.eqb_refl.
  - destruct (String.eqb k k') eqn:E; simpl; rewrite E; [done | exact IH].
Qed.

Lemma dict_get_set_ne {V} k k' (v : V) d :
  k' <> k -> dict_get k' (dict_set k v d) = dict_get k' d.
Proof.
  intros Hne. induction d as [|[k2 v2] d IH]; simpl.
  - destruct (String.eqb k' k) eqn:E; [|done].
    apply String.eqb_eq in E. congruence.
  - destruct (String.eqb k k2) eqn:E; simpl.
    + apply String.eqb_eq in E. subst k2.
      destruct (String.eqb k' k) eqn:E2; [|done].
      apply String.eqb_eq in E2. congruence.
    + destruct (String.eqb k' k2); [done | exact IH].
Qed.

Lemma dict_set_id {V} k (v : V) d : dict_get k d = Some v -> dict_set k v d = d.
Proof.
  induction d as [|[k' v'] d IH]; simpl; [done|].
  destruct (String.eqb k k') eqn:E.
  - intros [= ->]. done.
  - intros H. by rewrite IH.
Qed.

Lemma dict_set_set {V} k (v w : V) d : dict_set k w (dict_set k v d) = dict_set k w d.
Proof.
  induction d as [|[k' v'] d IH]; simpl.
  - by rewrite String.eqb_refl.
  - destruct (String.eqb k k') eqn:E; simpl; rewrite E; [done | by rewrite IH].
Qed.

Lemma dict_get_setdefault_eq {V} k (v : V) d :
  dict_get k (dict_setdefault k v d) = Some (default v (dict_get k d)).
Proof.
  unfold dict_setdefault. destruct (dict_get k d) eqn:E; simpl; [done|].
  apply dict_get_set_eq.
Qed.

Lemma dict_get_setdefault_ne {V} k k' (v : V) d :
  k' <> k -> dict_get k' (dict_setdefault k v d) = dict_get k' d.
Proof.
  intros. unfold dict_setdefault. destruct (dict_get k d); [done|].
  by apply dict_get_set_ne.
Qed.

Lemma dict_setdefault_id {V} k (v : V) d :
  is_Some (dict_get k d) -> dict_setdefault k v d = d.
Proof. intros [x Hx]. unfold dict_setdefault. by rewrite Hx. Qed.

Lemma dict_get_set {V} k k' (v : V) d :
  dict_get k' (dict_set k v d) = if String.eqb k' k then Some v else dict_get k' d.
Proof.
  destruct (String.eqb k' k) eqn:E.
  - apply String.eqb_eq in E. subst. apply dict_get_set_eq.
  - apply String.eqb_neq in E. by apply dict_get_set_ne.
Qed.

Lemma dict_get_setdefault {V} k k' (v : V) d :
  dict_get k' (dict_setdefault k v d) =
  if String.eqb k' k then Some (default v (dict_get k d)) else dict_get k' d.
Proof.
  destruct (String.eqb k' k) eqn:E.
  - apply String.eqb_eq in E. subst. apply dict_get_setdefault_eq.
  - apply String.eqb_neq in E. by apply dict_get_setdefault_ne.
Qed.

Lemma keys_dict_set {V} k (v w : V) d :
  map fst (dict_set k v d) = map fst (dict_set k w d).
Proof.
  induction d as [|[k' v'] d IH]; simpl; [done|].
  destruct (String.eqb k k'); simpl; [done | by rewrite IH].
Qed.

Lemma required_value_truthy o : truthy (required_value o) = true.
Proof. destruct o as [v|]; simpl; [|done]. by destruct (truthy v) eqn:E. Qed.

Lemma dict_get_fill_required f k d :
  dict_get k (fill_required f d) =
  if String.eqb k f then Some (required_value (dict_get f d)) else dict_get k d.
Proof.
  unfold fill_required, required_value.
  destruct (dict_get f d) as [v|] eqn:E.
  - destruct (truthy v) eqn:T.
    + destruct (String.eqb k f) eqn:Ek; [|done].
      apply String.eqb_eq in Ek. by subst.
    + apply dict_get_set.
  - apply dict_get_set.
Qed.

Lemma fill_required_id f d v :
  dict_get f d = Some v -> truthy v = true -> fill_required f d = d.
Proof. intros H T. unfold fill_required. by rewrite H, T. Qed.

Lemma validate_rubric_eq now r :
  _validate_rubric now (JObj r) =
  (let* r7 :=
     match dict_get "phases" (with_defaults r) with
     | Some phases =>
         let* phases' := for_each validate_phase phases in
         Ok (dict_set "phases" phases' (with_defaults r))
     | None => Ok (with_defaults r)
     end in
   let* r9 :=
     match dict_get "benchmarks" (dict_setdefault "benchmarks" (JObj []) r7) with
     | Some (JObj b) =>
         Ok (dict_set "benchmarks" (JObj (fill_benchmarks b))
               (dict_setdefault "benchmarks" (JObj []) r7))
     | _ => Raise AttributeError
     end in
   Ok (JObj (dict_set "_meta" (meta now) r9)))%res.
Proof. reflexivity. Qed.

(** Evaluates comparisons of literal keys. *)
Ltac eval_keys :=
  repeat match goal with
    | |- context [String.eqb ?a ?b] =>
        let v := eval vm_compute in (String.eqb a b) in
        lazymatch v with
        | true => change (String.eqb a b) with true
        | false => change (String.eqb a b) with false
        end
    end; cbv iota.

Ltac dict_norm :=
  repeat (rewrite ?dict_get_set, ?dict_get_setdefault, ?dict_get_fill_required;
          progress eval_keys).

Lemma with_defaults_phases r :
  dict_get "phases" (with_defaults r) = Some (default (JArr []) (dict_get "phases" r)).
Proof. unfold with_defaults. cbn [fold_left]. dict_norm. done. Qed.

Lemma with_defaults_required r f :
  f ∈ ["title"; "difficulty"; "archetype"] ->
  dict_get f (with_defaults r) = Some (required_value (dict_get f r)).
Proof.
  intros Hf. unfold with_defaults. cbn [fold_left].
  repeat (apply elem_of_cons in Hf as [->|Hf]); [| | |by apply elem_of_nil in Hf];
    dict_norm; done.
Qed.

(** *** Loops over JSON lists *)

Lemma rmap_Forall2 {A B} (f : A -> result B) xs ys :
  rmap f xs = Ok ys -> Forall2 (fun x y => f x = Ok y) xs ys.
Proof.
  revert ys. induction xs as [|x xs IH]; simpl; intros ys H.
  - injection H as <-. constructor.
  - destruct (f x) as [y|] eqn:Ex; simpl in H; [|discriminate].
    destruct (rmap f xs) as [ys'|] eqn:Er; simpl in H; [|discriminate].
    injection H as <-. constructor; [done | by apply IH].
Qed.

Lemma rmap_fixed {A} (f : A -> result A) xs ys :
  (forall x y, f x = Ok y -> f y = Ok y) ->
  rmap f xs = Ok ys -> rmap f ys = Ok ys.
Proof.
  intros Hf H. apply rmap_Forall2 in H.
  induction H as [|x y xs ys Hxy _ IH]; simpl; [done|].
  by rewrite (Hf _ _ Hxy), IH.
Qed.

Lemma rmap_all_ok {A B} (f : A -> result B) xs :
  Forall (fun x => exists y, f x = Ok y) xs -> exists ys, rmap f xs = Ok ys.
Proof.
  induction 1 as [|x xs [y Hy] _ [ys IH]]; simpl; [by eexists|].
  rewrite Hy, IH. simpl. by eexists.
Qed.

Lemma rmap_raises {A B} (f : A -> result B) xs e :
  rmap f xs = Raise e -> exists x, x ∈ xs /\ f x = Raise e.
Proof.
  induction xs as [|x xs IH]; simpl; [discriminate|].
  destruct (f x) as [y|e'] eqn:Ex; simpl.
  - destruct (rmap f xs) as [ys|e'] eqn:Er; simpl; [discriminate|].
    intros [= ->]. destruct IH as (x' & Hin & Hx'); [done|].
    exists x'. split; [by right | done].
  - intros [= ->]. exists x. split; [by left | done].
Qed.

Lemma chars_are_str s x : x ∈ chars s -> is_dict x = false.
Proof.
  induction s as [|c s IH]; simpl; [by intros ?%elem_of_nil|].
  intros [->|?]%elem_of_cons; [done | by apply IH].
Qed.

Lemma keys_are_str (kvs : dict) x :
  x ∈ map (fun kv => JStr (fst kv)) kvs -> is_dict x = false.
Proof.
  intros (kv & -> & _)%list_elem_of_fmap. done.
Qed.

(** A loop whose body accepts dicts only succeeds on a list, whose elements
    it updates, and on an empty dict or str, which it leaves alone. *)
Lemma for_each_ok (body : json -> result json) it it' :
  (forall x y, body x = Ok y -> is_dict x = true) ->
  for_each body it = Ok it' ->
  (exists xs ys, it = JArr xs /\ it' = JArr ys /\ Forall2 (fun x y => body x = Ok y) xs ys)
  \/ (it' = it /\ elements it = [] /\ exists ys, rmap body (elements it) = Ok ys).
Proof.
  intros Hd. destruct it as [| | |s|xs|kvs]; simpl; try discriminate.
  - destruct (rmap body (chars s)) as [ys|] eqn:E; simpl; [|discriminate].
    intros [= <-]. right. split; [done|]. split; [|by eexists].
    destruct s as [|c s]; [done|]. simpl in E.
    destruct (body (JStr (String c EmptyString))) as [y|] eqn:Ey; [|done].
    by apply Hd in Ey.
  - destruct (rmap body xs) as [ys|] eqn:E; simpl; [|discriminate].
    intros [= <-]. left. exists xs, ys. repeat split. by apply rmap_Forall2.
  - destruct (rmap body _) as [ys|] eqn:E; simpl; [|discriminate].
    intros [= <-]. right. split; [done|]. split; [|by eexists].
    destruct kvs as [|[k v] kvs]; [done|]. simpl in E.
    destruct (body (JStr k)) as [y|] eqn:Ey; [|done].
    by apply Hd in Ey.
Qed.

Lemma for_each_fixed (body : json -> result json) it it' :
  (forall x y, body x = Ok y -> body y = Ok y) ->
  for_each body it = Ok it' -> for_each body it' = Ok it'.
Proof.
  intros Hf. destruct it as [| | |s|xs|kvs]; simpl; try discriminate.
  - destruct (rmap body (chars s)) as [ys|] eqn:E; simpl; [|discriminate].
    intros [= <-]. simpl. by rewrite E.
  - destruct (rmap body xs) as [ys|] eqn:E; simpl; [|discriminate].
    intros [= <-]. simpl. by rewrite (rmap_fixed _ _ _ Hf E).
  - destruct (rmap body _) as [ys|] eqn:E; simpl; [|discriminate].
    intros [= <-]. simpl. by rewrite E.
Qed.

Lemma for_each_elements (body : json -> result json) it it' y :
  (forall x y, body x = Ok y -> is_dict x = true) ->
  for_each body it = Ok it' -> y ∈ elements it' -> exists x, body x = Ok y.
Proof.
  intros Hd H Hy. destruct (for_each_ok _ _ _ Hd H) as [(xs & ys & -> & -> & HF)|(-> & He & _)].
  - simpl in Hy. apply list_elem_of_lookup in Hy as [i Hi].
    destruct (Forall2_lookup_r _ _ _ _ _ HF Hi) as (x & _ & Hx). eauto.
  - rewrite He in Hy. by apply elem_of_nil in Hy.
Qed.

(** *** Actions and phases *)

Lemma validate_action_inv a a' :
  validate_action a = Ok a' ->
  exists d, a = JObj d /\ a' = JObj (dict_setdefault "importance" (JStr "important") d).
Proof. destruct a; simpl; try discriminate. intros [= <-]. eauto. Qed.

Lemma validate_action_dict a a' : validate_action a = Ok a' -> is_dict a = true.
Proof. intros (d & -> & _)%validate_action_inv. done. Qed.

Lemma validate_action_fixed a a' :
  validate_action a = Ok a' -> validate_action a' = Ok a'.
Proof.
  intros (d & -> & ->)%validate_action_inv. simpl. f_equal. f_equal.
  apply dict_setdefault_id. rewrite dict_get_setdefault_eq. by eexists.
Qed.

Lemma validate_phase_inv p p' :
  validate_phase p = Ok p' ->
  exists d actions,
    p = JObj d /\
    for_each validate_action (default (JArr []) (dict_get "key_actions" d)) = Ok actions /\
    p' = JObj (dict_set "key_actions" actions (phase_defaults d)).
Proof.
  destruct p as [| | | | |d]; simpl; try discriminate.
  fold (phase_defaults d).
  assert (dict_get "key_actions" (phase_defaults d)
          = Some (default (JArr []) (dict_get "key_actions" d))) as ->.
  { unfold phase_defaults. dict_norm. done. }
  destruct (for_each validate_action _) as [actions|] eqn:E; simpl; [|discriminate].
  intros [= <-]. eauto.
Qed.

Lemma validate_phase_dict p p' : validate_phase p = Ok p' -> is_dict p = true.
Proof. intros (d & ? & -> & _)%validate_phase_inv. done. Qed.

Lemma validate_phase_fixed p p' :
  validate_phase p = Ok p' -> validate_phase p' = Ok p'.
Proof.
  intros (d & actions & -> & Hact & ->)%validate_phase_inv.
  set (q := dict_set "key_actions" actions (phase_defaults d)).
  assert (dict_get "key_actions" q = Some actions) as Hk
    by (unfold q; apply dict_get_set_eq).
  assert (is_Some (dict_get "success_criteria" q)) as Hs.
  { unfold q, phase_defaults. dict_norm. by eexists. }
  assert (is_Some (dict_get "common_mistakes" q)) as Hm.
  { unfold q, phase_defaults. dict_norm. by eexists. }
  simpl. rewrite (dict_setdefault_id "key_actions") by (rewrite Hk; by eexists).
  rewrite (dict_setdefault_id "success_criteria") by done.
  rewrite (dict_setdefault_id "common_mistakes") by done.
  rewrite Hk.
  rewrite (for_each_fixed _ _ _ validate_action_fixed Hact). simpl.
  by rewrite (dict_set_id _ _ _ Hk).
Qed.

(** *** The validated rubric *)

Ltac in_list := by repeat constructor.

Lemma validate_rubric_inv now t out :
  _validate_rubric now t = Ok out ->
  exists r phases b0,
    t = JObj r /\
    for_each validate_phase (default (JArr []) (dict_get "phases" r)) = Ok phases /\
    default (JObj []) (dict_get "benchmarks" r) = JObj b0 /\
    out = JObj (validated now r phases b0).
Proof.
  destruct t as [| | | | |r]; try discriminate.
  rewrite validate_rubric_eq, with_defaults_phases.
  destruct (for_each validate_phase _) as [phases|] eqn:E; [|discriminate].
  cbn [rbind].
  assert (dict_get "benchmarks"
            (dict_setdefault "benchmarks" (JObj [])
               (dict_set "phases" phases (with_defaults r)))
          = Some (default (JObj []) (dict_get "benchmarks" r))) as ->.
  { unfold with_defaults. cbn [fold_left]. dict_norm. done. }
  destruct (default (JObj []) (dict_get "benchmarks" r)) as [| | | | |b0] eqn:Eb;
    try discriminate.
  cbn [rbind]. intros [= <-]. exists r, phases, b0. done.
Qed.

Lemma fold_setdefault_get (v : json) ks k b :
  dict_get k (fold_left (fun b key => dict_setdefault key v b) ks b) =
  if bool_decide (k ∈ ks) then Some (default v (dict_get k b)) else dict_get k b.
Proof.
  revert b. induction ks as [|k0 ks IH]; intros b; cbn [fold_left].
  - case_bool_decide; [by apply elem_of_nil in H | done].
  - rewrite IH, dict_get_setdefault.
    destruct (String.eqb k k0) eqn:E;
      [apply String.eqb_eq in E; subst k0 | apply String.eqb_neq in E];
      repeat case_bool_decide; try done; set_solver.
Qed.

Lemma fold_setdefault_id (v : json) ks b :
  (forall k, k ∈ ks -> is_Some (dict_get k b)) ->
  fold_left (fun b key => dict_setdefault key v b) ks b = b.
Proof.
  induction ks as [|k0 ks IH]; intros H; simpl; [done|].
  rewrite dict_setdefault_id by (apply H; by left).
  apply IH. intros k Hk. apply H. by right.
Qed.

Lemma fill_benchmarks_get k b :
  k ∈ benchmark_keys ->
  dict_get k (fill_benchmarks b) = Some (default JNull (dict_get k b)).
Proof.
  intros Hk. unfold fill_benchmarks. rewrite fold_setdefault_get.
  by rewrite bool_decide_eq_true_2.
Qed.

Lemma fill_benchmarks_fixed b : fill_benchmarks (fill_benchmarks b) = fill_benchmarks b.
Proof.
  apply fold_setdefault_id. intros k Hk.
  rewrite fill_benchmarks_get by done. by eexists.
Qed.

Lemma validated_get now r phases b0 k :
  dict_get k (validated now r phases b0) =
  if String.eqb k "_meta" then Some (meta now)
  else if String.eqb k "benchmarks" then Some (JObj (fill_benchmarks b0))
  else if String.eqb k "phases" then Some phases
  else dict_get k (with_defaults r).
Proof.
  unfold validated. rewrite !dict_get_set, dict_get_setdefault.
  destruct (String.eqb k "_meta"); [done|].
  destruct (String.eqb k "benchmarks"); [done|].
  by rewrite dict_get_set.
Qed.

Lemma with_defaults_array r f :
  f ∈ ["civilizations"; "map_types"; "phases"; "decision_points"; "counters";
       "key_insights"] ->
  is_Some (dict_get f (with_defaults r)).
Proof.
  intros Hf. unfold with_defaults. cbn [fold_left].
  repeat (apply elem_of_cons in Hf as [->|Hf]);
    [| | | | | |by apply elem_of_nil in Hf]; dict_norm; by eexists.
Qed.

Lemma with_defaults_fixed r :
  (forall f, f ∈ ["title"; "difficulty"; "archetype"] ->
             exists v, dict_get f r = Some v /\ truthy v = true) ->
  (forall f, f ∈ ["civilizations"; "map_types"; "phases"; "decision_points";
                  "counters"; "key_insights"] -> is_Some (dict_get f r)) ->
  with_defaults r = r.
Proof.
  intros Hreq Harr. unfold with_defaults. cbn [fold_left].
  destruct (Hreq "title") as (v1 & H1 & T1); [in_list|].
  destruct (Hreq "difficulty") as (v2 & H2 & T2); [in_list|].
  destruct (Hreq "archetype") as (v3 & H3 & T3); [in_list|].
  rewrite (fill_required_id _ _ _ H1 T1), (fill_required_id _ _ _ H2 T2),
    (fill_required_id _ _ _ H3 T3).
  rewrite (dict_setdefault_id "civilizations") by (apply Harr; in_list).
  rewrite (dict_setdefault_id "map_types") by (apply Harr; in_list).
  rewrite (dict_setdefault_id "phases") by (apply Harr; in_list).
  rewrite (dict_setdefault_id "decision_points") by (apply Harr; in_list).
  rewrite (dict_setdefault_id "counters") by (apply Harr; in_list).
  rewrite (dict_setdefault_id "key_insights") by (apply Harr; in_list).
  done.
Qed.

Lemma validated_fixed now now' r phases b0 :
  for_each validate_phase phases = Ok phases ->
  _validate_rubric now' (JObj (validated now r phases b0)) =
  Ok (JObj (validated now' r phases b0)).
Proof.
  intros Hp. set (e := validated now r phases b0).
  rewrite validate_rubric_eq.
  assert (with_defaults e = e) as ->.
  { apply with_defaults_fixed.
    - intros f Hf. exists (required_value (dict_get f r)).
      split; [|apply required_value_truthy].
      unfold e. rewrite validated_get, (with_defaults_required _ _ Hf).
      repeat (apply elem_of_cons in Hf as [->|Hf]);
        [done | done | done | by apply elem_of_nil in Hf].
    - intros f Hf. unfold e. rewrite validated_get.
      pose proof (with_defaults_array r f Hf) as Hs.
      repeat (apply elem_of_cons in Hf as [->|Hf]);
        [| | | | | |by apply elem_of_nil in Hf]; eval_keys; by eauto. }
  assert (dict_get "phases" e = Some phases) as Hph
    by (unfold e; rewrite validated_get; done).
  rewrite Hph, Hp. cbn [rbind].
  rewrite (dict_set_id _ _ _ Hph).
  assert (dict_get "benchmarks" e = Some (JObj (fill_benchmarks b0))) as Hb
    by (unfold e; rewrite validated_get; done).
  rewrite (dict_setdefault_id "benchmarks") by (rewrite Hb; by eexists).
  rewrite Hb. cbn [rbind].
  rewrite fill_benchmarks_fixed, (dict_set_id _ _ _ Hb).
  unfold e, validated. by rewrite dict_set_set.
Qed.

Lemma validated_keys now now' r phases b0 :
  map fst (validated now' r phases b0) = map fst (validated now r phases b0).
Proof. apply keys_dict_set. Qed.

(** C6.  Validating the output of a successful validation succeeds and gives
    the same dict, with the same keys in the same order and the same value
    under every key other than '_meta' (whose timestamp is the later one);
    at the same instant the two outputs are equal. *)
Theorem validate_rubric_idempotent now now' rubric out :
  _validate_rubric now rubric = Ok out ->
  exists out' r r',
    _validate_rubric now' out = Ok out' /\
    out = JObj r /\ out' = JObj r' /\
    map fst r' = map fst r /\
    (forall k, k <> "_meta" -> dict_get k r' = dict_get k r) /\
    (now' = now -> out' = out).
Proof.
  intros (r & phases & b0 & -> & Hph & Hb0 & ->)%validate_rubric_inv.
  exists (JObj (validated now' r phases b0)),
    (validated now r phases b0), (validated now' r phases b0).
  split.
  { apply validated_fixed.
    exact (for_each_fixed _ _ _ validate_phase_fixed Hph). }
  split; [done|]. split; [done|].
  split; [apply validated_keys|].
  split; [|by intros ->].
  intros k Hk. rewrite !validated_get.
  apply String.eqb_neq in Hk. by rewrite Hk.
Qed.

(** *** When validation succeeds, and how it fails *)

Lemma rmap_succeeds {A B} (f : A -> result B) (ok : A -> bool) xs :
  (forall x, (exists y, f x = Ok y) <-> ok x = true) ->
  (exists ys, rmap f xs = Ok ys) <-> forallb ok xs = true.
Proof.
  intros Hok. rewrite forallb_forall. split.
  - intros [ys H] x Hx. apply Hok.
    apply rmap_Forall2 in H. apply list_elem_of_In, list_elem_of_lookup in Hx as [i Hi].
    destruct (Forall2_lookup_l _ _ _ _ _ H Hi) as (y & _ & Hy). eauto.
  - intros H. apply rmap_all_ok, Forall_forall. intros x Hx.
    apply Hok, H. by apply list_elem_of_In.
Qed.

Lemma for_each_succeeds (body : json -> result json) (ok : json -> bool) it :
  (forall x, (exists y, body x = Ok y) <-> ok x = true) ->
  (exists it', for_each body it = Ok it') <-> loop_shape ok it = true.
Proof.
  intros Hok. unfold loop_shape.
  assert (forall (xs : list json) (k : list json -> json),
            (exists it', (let* ys := rmap body xs in Ok (k ys))%res = Ok it')
            <-> forallb ok xs = true) as Hloop.
  { intros xs k. rewrite <- (rmap_succeeds body ok _ Hok). split.
    - intros [it' H]. destruct (rmap body xs) as [ys|]; [by eexists | done].
    - intros [ys ->]. simpl. by eexists. }
  destruct it as [| | |s|xs|kvs]; simpl;
    try (split; [intros [? ?]; discriminate | discriminate]).
  - apply (Hloop (chars s) (fun _ => JStr s)).
  - apply (Hloop xs JArr).
  - apply (Hloop _ (fun _ => JObj kvs)).
Qed.

Lemma for_each_raises (body : json -> result json) it e :
  for_each body it = Raise e -> e = TypeError \/ exists x, body x = Raise e.
Proof.
  destruct it as [| | |s|xs|kvs]; simpl; try (intros [= <-]; by left);
    destruct (rmap body _) as [ys|e'] eqn:E; simpl; try discriminate;
    intros [= ->]; right; apply rmap_raises in E as (x & _ & Hx); eauto.
Qed.

Lemma validate_action_succeeds a :
  (exists a', validate_action a = Ok a') <-> is_dict a = true.
Proof.
  destruct a; simpl; split; try discriminate; try (intros [? ?]; discriminate);
    eauto.
Qed.

Lemma validate_action_raises a e : validate_action a = Raise e -> e = AttributeError.
Proof. destruct a; simpl; congruence. Qed.

Lemma validate_phase_eq d :
  validate_phase (JObj d) =
  (let* actions' :=
     for_each validate_action (default (JArr []) (dict_get "key_actions" d)) in
   Ok (JObj (dict_set "key_actions" actions' (phase_defaults d))))%res.
Proof.
  simpl. fold (phase_defaults d).
  assert (dict_get "key_actions" (phase_defaults d)
          = Some (default (JArr []) (dict_get "key_actions" d))) as ->.
  { unfold phase_defaults. dict_norm. done. }
  done.
Qed.

Lemma validate_phase_succeeds p :
  (exists p', validate_phase p = Ok p') <-> phase_shape p = true.
Proof.
  destruct p as [| | | | |d];
    try (simpl; split; [intros [? ?]; discriminate | discriminate]).
  rewrite validate_phase_eq. unfold phase_shape.
  rewrite <- (for_each_succeeds validate_action is_dict _ validate_action_succeeds).
  split.
  - intros [p' H]. destruct (for_each validate_action _) as [acts|]; [by eexists | done].
  - intros [acts ->]. simpl. by eexists.
Qed.

Lemma validate_phase_raises p e :
  validate_phase p = Raise e -> e = TypeError \/ e = AttributeError.
Proof.
  destruct p as [| | | | |d]; try (simpl; intros [= <-]; by right).
  rewrite validate_phase_eq.
  destruct (for_each validate_action _) as [acts|e'] eqn:E; [discriminate|].
  simpl. intros [= ->].
  apply for_each_raises in E as [-> |[x Hx]]; [by left|].
  right. by apply validate_action_raises in Hx.
Qed.

Lemma validate_rubric_succeeds now t :
  (exists out, _validate_rubric now t = Ok out) <-> rubric_shape t = true.
Proof.
  destruct t as [| | | | |r];
    try (simpl; split; [intros [? ?]; discriminate | discriminate]).
  unfold rubric_shape. rewrite andb_true_iff.
  rewrite <- (for_each_succeeds validate_phase phase_shape _ validate_phase_succeeds).
  rewrite validate_rubric_eq, with_defaults_phases.
  split.
  - intros [out H].
    destruct (for_each validate_phase _) as [phases|] eqn:E; [|discriminate].
    split; [by eexists|]. cbn [rbind] in H.
    assert (dict_get "benchmarks"
              (dict_setdefault "benchmarks" (JObj [])
                 (dict_set "phases" phases (with_defaults r)))
            = Some (default (JObj []) (dict_get "benchmarks" r))) as Hb.
    { unfold with_defaults. cbn [fold_left]. dict_norm. done. }
    rewrite Hb in H.
    by destruct (default (JObj []) (dict_get "benchmarks" r)).
  - intros [[phases ->] Hb]. cbn [rbind].
    assert (dict_get "benchmarks"
              (dict_setdefault "benchmarks" (JObj [])
                 (dict_set "phases" phases (with_defaults r)))
            = Some (default (JObj []) (dict_get "benchmarks" r))) as ->.
    { unfold with_defaults. cbn [fold_left]. dict_norm. done. }
    destruct (default (JObj []) (dict_get "benchmarks" r)); try discriminate.
    cbn [rbind]. by eexists.
Qed.

Lemma validate_rubric_raises now t e :
  _validate_rubric now t = Raise e -> e = TypeError \/ e = AttributeError.
Proof.
  destruct t as [| | | | |r]; try (simpl; intros [= <-]; by left).
  rewrite validate_rubric_eq, with_defaults_phases.
  destruct (for_each validate_phase _) as [phases|e'] eqn:E.
  - cbn [rbind].
    destruct (dict_get "benchmarks" _) as [[| | | | |b]|]; cbn [rbind];
      try discriminate; intros [= <-]; by right.
  - cbn [rbind]. intros [= ->].
    apply for_each_raises in E as [-> |[x Hx]]; [by left|].
    by apply validate_phase_raises in Hx.
Qed.

(** *** What validation leaves in the rubric *)

Lemma for_each_looped (body : json -> result json) (R : json -> json -> Prop) it it' :
  (forall x y, body x = Ok y -> is_dict x = true) ->
  (forall x y, body x = Ok y -> R x y) ->
  for_each body it = Ok it' -> looped R it it'.
Proof.
  intros Hd HR H.
  destruct (for_each_ok _ _ _ Hd H) as [(xs & ys & -> & -> & HF)|(-> & He & _)].
  - left. exists xs, ys. split; [done|]. split; [done|].
    eapply Forall2_impl; [exact HF | exact HR].
  - right. split; [done|]. split; [|done].
    by destruct it.
Qed.

Lemma looped_elements R it0 it y :
  looped R it0 it -> y ∈ elements it -> exists x, x ∈ elements it0 /\ R x y.
Proof.
  intros [(xs & ys & -> & -> & HF)|(-> & _ & He)] Hy.
  - simpl in Hy. apply list_elem_of_lookup in Hy as [i Hi].
    destruct (Forall2_lookup_r _ _ _ _ _ HF Hi) as (x & Hx & HR).
    exists x. split; [|done]. simpl. by eapply list_elem_of_lookup_2.
  - rewrite He in Hy. by apply elem_of_nil in Hy.
Qed.

Lemma validate_action_filled a0 a : validate_action a0 = Ok a -> action_filled a0 a.
Proof.
  intros (d0 & -> & ->)%validate_action_inv.
  exists d0, (dict_setdefault "importance" (JStr "important") d0).
  split; [done|]. split; [done|]. intros k. apply dict_get_setdefault.
Qed.

Lemma validate_phase_filled p0 p : validate_phase p0 = Ok p -> phase_filled p0 p.
Proof.
  intros (d0 & actions & -> & Hact & ->)%validate_phase_inv.
  exists d0, (dict_set "key_actions" actions (phase_defaults d0)), actions.
  split; [done|]. split; [done|]. split; [apply dict_get_set_eq|].
  split.
  { exact (for_each_looped _ _ _ _ validate_action_dict validate_action_filled Hact). }
  split; [unfold phase_defaults; dict_norm; done|].
  split; [unfold phase_defaults; dict_norm; done|].
  intros k Hk. rewrite !not_elem_of_cons in Hk. destruct Hk as (H1 & H2 & H3 & _).
  unfold phase_defaults.
  rewrite dict_get_set_ne, !dict_get_setdefault_ne by done. done.
Qed.

Lemma with_defaults_container r :
  dict_get "civilizations" (with_defaults r)
  = Some (default (JArr []) (dict_get "civilizations" r)) /\
  dict_get "map_types" (with_defaults r)
  = Some (default (JArr [JStr "any"]) (dict_get "map_types" r)) /\
  dict_get "decision_points" (with_defaults r)
  = Some (default (JArr []) (dict_get "decision_points" r)) /\
  dict_get "counters" (with_defaults r)
  = Some (default (JObj []) (dict_get "counters" r)) /\
  dict_get "key_insights" (with_defaults r)
  = Some (default (JArr []) (dict_get "key_insights" r)).
Proof.
  unfold with_defaults. cbn [fold_left].
  repeat split; dict_norm; done.
Qed.

Lemma with_defaults_other r k :
  k ∉ ["title"; "difficulty"; "archetype"; "civilizations"; "map_types"; "phases";
       "decision_points"; "counters"; "key_insights"] ->
  dict_get k (with_defaults r) = dict_get k r.
Proof.
  intros Hk. rewrite !not_elem_of_cons in Hk.
  destruct Hk as (H1 & H2 & H3 & H4 & H5 & H6 & H7 & H8 & H9 & _).
  unfold with_defaults. cbn [fold_left].
  rewrite !dict_get_setdefault_ne by done.
  rewrite !dict_get_fill_required.
  apply String.eqb_neq in H1, H2, H3. by rewrite H1, H2, H3.
Qed.

Lemma fill_benchmarks_other k b :
  k ∉ benchmark_keys -> dict_get k (fill_benchmarks b) = dict_get k b.
Proof.
  intros Hk. unfold fill_benchmarks. rewrite fold_setdefault_get.
  by rewrite bool_decide_eq_false_2.
Qed.

Section ParseTheorems.

Variable json_loads : string -> result json.

Lemma parse_rubric_json_ok now content rubric :
  parse_rubric_json json_loads now content = Ok rubric ->
  exists t, json_loads (strip (extract_fenced content)) = Ok t /\
            _validate_rubric now t = Ok rubric.
Proof.
  unfold parse_rubric_json.
  destruct (json_loads _) as [t|e]; [by eauto|]. by destruct e.
Qed.

(** C2.  Whenever [parse_rubric_json] returns, json.loads gave a dict
    [parsed] and the result is a dict [r] in which: title, difficulty and
    archetype hold the parsed value when that is true in a condition and
    'unknown' otherwise; civilizations, map_types, decision_points, counters
    and key_insights hold the parsed value, or their default when the key
    was absent; phases holds the parsed phases (or the empty list), every
    phase being the parsed phase with key_actions, success_criteria and
    common_mistakes filled in, and every key action the parsed action with
    'importance' set to 'important' when it had none; benchmarks is the
    parsed dict (or an empty one) with each of the seven keys set to None
    when it was absent; '_meta' is new; and every other key is as parsed. *)
Theorem parse_rubric_json_fields now content rubric :
  parse_rubric_json json_loads now content = Ok rubric ->
  exists parsed r,
    json_loads (strip (extract_fenced content)) = Ok (JObj parsed) /\
    rubric = JObj r /\
    (forall f, f ∈ ["title"; "difficulty"; "archetype"] ->
       exists v, dict_get f r = Some v /\ truthy v = true /\
         v = match dict_get f parsed with
             | Some v0 => if truthy v0 then v0 else JStr "unknown"
             | None => JStr "unknown"
             end) /\
    dict_get "civilizations" r
    = Some (default (JArr []) (dict_get "civilizations" parsed)) /\
    dict_get "map_types" r
    = Some (default (JArr [JStr "any"]) (dict_get "map_types" parsed)) /\
    dict_get "decision_points" r
    = Some (default (JArr []) (dict_get "decision_points" parsed)) /\
    dict_get "counters" r = Some (default (JObj []) (dict_get "counters" parsed)) /\
    dict_get "key_insights" r
    = Some (default (JArr []) (dict_get "key_insights" parsed)) /\
    (exists phases,
       dict_get "phases" r = Some phases /\
       looped phase_filled (default (JArr []) (dict_get "phases" parsed)) phases /\
       forall phase, phase ∈ elements phases ->
         exists p actions,
           phase = JObj p /\
           dict_get "key_actions" p = Some actions /\
           is_Some (dict_get "success_criteria" p) /\
           is_Some (dict_get "common_mistakes" p) /\
           forall action, action ∈ elements actions ->
             exists a, action = JObj a /\ is_Some (dict_get "importance" a)) /\
    (exists b0 b,
       default (JObj []) (dict_get "benchmarks" parsed) = JObj b0 /\
       dict_get "benchmarks" r = Some (JObj b) /\
       (forall k, k ∈ ["feudal_age"; "castle_age"; "imperial_age"; "second_tc";
                       "third_tc"; "villagers_at_10min"; "villagers_at_castle"] ->
          dict_get k b = Some (default JNull (dict_get k b0))) /\
       (forall k, k ∉ ["feudal_age"; "castle_age"; "imperial_age"; "second_tc";
                       "third_tc"; "villagers_at_10min"; "villagers_at_castle"] ->
          dict_get k b = dict_get k b0)) /\
    dict_get "_meta" r
    = Some (JObj [("extracted_at", JStr now); ("version", JStr "1.0")]) /\
    (forall k, k ∉ ["title"; "difficulty"; "archetype"; "civilizations";
                    "map_types"; "phases"; "decision_points"; "counters";
                    "key_insights"; "benchmarks"; "_meta"] ->
       dict_get k r = dict_get k parsed).
Proof.
  intros (t & Hl & Hv)%parse_rubric_json_ok.
  apply validate_rubric_inv in Hv as (parsed & phases & b0 & -> & Hph & Hb0 & ->).
  exists parsed, (validated now parsed phases b0).
  split; [done|]. split; [done|].
  destruct (with_defaults_container parsed) as (C1 & C2 & C3 & C4 & C5).
  split.
  { intros f Hf. exists (required_value (dict_get f parsed)).
    rewrite validated_get, (with_defaults_required _ _ Hf).
    split; [|split; [apply required_value_truthy | done]].
    repeat (apply elem_of_cons in Hf as [->|Hf]);
      [done | done | done | by apply elem_of_nil in Hf]. }
  split; [by rewrite validated_get|]. split; [by rewrite validated_get|].
  split; [by rewrite validated_get|]. split; [by rewrite validated_get|].
  split; [by rewrite validated_get|].
  split.
  { exists phases. split; [by rewrite validated_get|].
    pose proof (for_each_looped _ _ _ _ validate_phase_dict validate_phase_filled Hph)
      as Hloop.
    split; [exact Hloop|].
    intros phase Hin.
    destruct (looped_elements _ _ _ _ Hloop Hin)
      as (p0 & _ & d0 & d & actions & -> & -> & Hka & Hact & Hsc & Hcm & _).
    exists d, actions. split; [done|]. split; [done|].
    split; [by eexists|]. split; [by eexists|].
    intros action Ha.
    destruct (looped_elements _ _ _ _ Hact Ha) as (a0 & _ & e0 & e & -> & -> & He).
    exists e. split; [done|]. rewrite He. by eexists. }
  split.
  { exists b0, (fill_benchmarks b0). split; [done|].
    split; [by rewrite validated_get|].
    split; intros k Hk; [by apply fill_benchmarks_get | by apply fill_benchmarks_other]. }
  split; [by rewrite validated_get|].
  intros k Hk. rewrite validated_get.
  rewrite !not_elem_of_cons in Hk.
  destruct Hk as (H1 & H2 & H3 & H4 & H5 & H6 & H7 & H8 & H9 & H10 & H11 & _).
  apply String.eqb_neq in H11 as ->. apply String.eqb_neq in H10 as ->.
  apply String.eqb_neq in H6 as E6. rewrite E6.
  apply with_defaults_other. rewrite !not_elem_of_cons.
  repeat split; try done. apply not_elem_of_nil.
Qed.

(** C5, as amended.  [parse_rubric_json] raises a ValueError exactly when
    json.loads raises one on the text (the body of the fence when the
    pattern matches, stripped): a JSONDecodeError is replaced by a plain
    ValueError, and any other exception of json.loads, a plain ValueError
    or a RecursionError for example, is passed on as it is.  When json.loads
    returns a value, the validated rubric is returned exactly when the value
    has the shape [rubric_shape]; any other value raises TypeError or
    AttributeError, and a value that is not a dict raises TypeError. *)
Theorem parse_rubric_json_errors now content :
  let text := strip (extract_fenced content) in
  let outcome := parse_rubric_json json_loads now content in
  ((exists e, outcome = Raise e /\ is_value_error e = true) <->
   (exists e, json_loads text = Raise e /\ is_value_error e = true)) /\
  (json_loads text = Raise JSONDecodeError -> outcome = Raise ValueError) /\
  (forall e, json_loads text = Raise e -> e <> JSONDecodeError -> outcome = Raise e) /\
  (forall t, json_loads text = Ok t ->
     (rubric_shape t = true ->
        exists out, outcome = Ok out /\ _validate_rubric now t = Ok out) /\
     (rubric_shape t = false ->
        outcome = Raise TypeError \/ outcome = Raise AttributeError) /\
     (is_dict t = false -> outcome = Raise TypeError)).
Proof.
  intros text outcome. unfold outcome, parse_rubric_json. fold text.
  split; [|split; [|split]].
  - destruct (json_loads text) as [t|e] eqn:Hl.
    + split.
      * intros (e & H & He).
        apply validate_rubric_raises in H as [-> | ->]; discriminate.
      * intros (e & ? & _). discriminate.
    + split.
      * intros (e' & H & He'). exists e. split; [done|].
        destruct e; try done; injection H as <-; done.
      * intros (e' & [= <-] & He).
        destruct e; try discriminate He; by eexists.
  - by intros ->.
  - intros e -> Hne. by destruct e.
  - intros t ->. split; [|split].
    + intros [out H]%(validate_rubric_succeeds now). eauto.
    + intros Hs. destruct (_validate_rubric now t) as [out|e] eqn:E.
      * assert (rubric_shape t = true) by (apply (validate_rubric_succeeds now); eauto).
        congruence.
      * apply validate_rubric_raises in E as [-> | ->]; auto.
    + by destruct t.
Qed.

End ParseTheorems.

(** *** llm_client.py *)

Section ClientTheorems.

Import LLM.

Variable OpenAI : string -> option string -> option Client.
Variable float : Type.
Variable service : list (request float) -> reply.

Lemma init_openai_cases env :
  (provider (init_openai OpenAI env) = None /\ client (init_openai OpenAI env) = None)
  \/ (provider (init_openai OpenAI env) = Some "openai"
      /\ nonempty (getenv env "OPENAI_API_KEY" "") = true
      /\ is_Some (OpenAI (getenv env "OPENAI_API_KEY" "") None)).
Proof.
  unfold init_openai.
  destruct (nonempty _) eqn:Hk; [|by left].
  destruct (OpenAI _ None) as [c|] eqn:Hc; [|by left].
  right. simpl. by eauto.
Qed.

Lemma init_client_unresolved env :
  provider (_init_client OpenAI env) = None -> client (_init_client OpenAI env) = None.
Proof.
  unfold _init_client.
  destruct (_ && _).
  - destruct (OpenAI _ (Some _)); [discriminate|].
    destruct (init_openai_cases env) as [[_ ?]|[-> _]]; [done | discriminate].
  - destruct (init_openai_cases env) as [[_ ?]|[-> _]]; [done | discriminate].
Qed.


Lemma complete_calls self prompt sp t mt jm w :
  calls (snd (complete service self prompt sp t mt jm w)) = S (calls w).
Proof.
  unfold complete. destruct (client self); [|done].
  destruct (service _) as [msg|[|m ms] usage]; done.
Qed.

Lemma world_after_calls k self prompt sp t mt jm w :
  calls (world_after service k self prompt sp t mt jm w) = (calls w + k)%nat.
Proof.
  revert w. induction k as [|k IH]; intros w; simpl; [lia|].
  rewrite IH, complete_calls. lia.
Qed.

Lemma world_after_S k self prompt sp t mt jm w :
  world_after service (S k) self prompt sp t mt jm w =
  snd (complete service self prompt sp t mt jm
         (world_after service k self prompt sp t mt jm w)).
Proof.
  revert w. induction k as [|k IH]; intros w; [done|].
  change (world_after service (S (S k)) self prompt sp t mt jm w)
    with (world_after service (S k) self prompt sp t mt jm
            (snd (complete service self prompt sp t mt jm w))).
  by rewrite IH.
Qed.

End ClientTheorems.

Section RetryTheorems.

Import LLM.

Variable float : Type.
Variable service : list (request float) -> reply.

(** Every result of [complete] is a dict whose 'success' is True or False. *)
Lemma complete_success self prompt sp t mt jm w :
  exists d b,
    fst (complete service self prompt sp t mt jm w) = JObj d /\
    dict_get "success" d = Some (JBool b).
Proof.
  unfold complete. destruct (client self); [|by eexists _, _].
  destruct (service _) as [msg|[|m ms] usage]; by eexists _, _.
Qed.

Lemma retry_loop_S n self prompt sp t mt jm last w :
  retry_loop service (S n) self prompt sp t mt jm last w =
  (let '(r, w') := complete service self prompt sp t mt jm w in
   match success_of r with
   | Ok true => (Ok r, w')
   | Ok false => retry_loop service n self prompt sp t mt jm (Some r) w'
   | Raise e => (Raise e, w')
   end).
Proof. reflexivity. Qed.

Lemma retry_loop_spec m self prompt sp t mt jm last w :
  exists n d, (n <= m)%nat /\
    retry_loop service (S m) self prompt sp t mt jm last w =
      (Ok (JObj d), world_after service (S n) self prompt sp t mt jm w) /\
    attempt service n self prompt sp t mt jm w = JObj d /\
    (forall k, (k < n)%nat ->
       exists dk, attempt service k self prompt sp t mt jm w = JObj dk /\
                  dict_get "success" dk = Some (JBool false)) /\
    (dict_get "success" d = Some (JBool true) \/
     (dict_get "success" d = Some (JBool false) /\ n = m)).
Proof.
  revert last w. induction m as [|m IH]; intros last w; rewrite retry_loop_S.
  - destruct (complete_success self prompt sp t mt jm w) as (d & b & Hd & Hb).
    destruct (complete service self prompt sp t mt jm w) as [r w'] eqn:Hc.
    simpl in Hd. subst r.
    exists O, d. split; [lia|].
    assert (attempt service 0 self prompt sp t mt jm w = JObj d) as Ha
      by (unfold attempt; simpl; by rewrite Hc).
    assert (world_after service 1 self prompt sp t mt jm w = w') as Hw
      by (simpl; by rewrite Hc).
    rewrite Hw. unfold success_of. rewrite Hb.
    destruct b; simpl; (split; [done|]); (split; [done|]); (split; [lia|]); auto.
  - destruct (complete_success self prompt sp t mt jm w) as (d & b & Hd & Hb).
    destruct (complete service self prompt sp t mt jm w) as [r w'] eqn:Hc.
    simpl in Hd. subst r.
    assert (attempt service 0 self prompt sp t mt jm w = JObj d) as Ha
      by (unfold attempt; simpl; by rewrite Hc).
    unfold success_of. rewrite Hb. destruct b; cbn [truthy].
    + exists O, d. split; [lia|]. simpl. rewrite Hc. simpl.
      split; [done|]. split; [done|]. split; [lia | by left].
    + destruct (IH (Some (JObj d)) w') as (n & d' & Hn & Hrun & Hatt' & Hfail & Hlast).
      assert (forall k, attempt service (S k) self prompt sp t mt jm w
                        = attempt service k self prompt sp t mt jm w') as Hatt.
      { intros k. unfold attempt. simpl. by rewrite Hc. }
      assert (forall k, world_after service (S k) self prompt sp t mt jm w
                        = world_after service k self prompt sp t mt jm w') as Hwa.
      { intros k. simpl. by rewrite Hc. }
      exists (S n), d'. split; [lia|].
      split; [by rewrite Hrun, Hwa|].
      split; [by rewrite Hatt|].
      split.
      * intros [|k] Hk; [by exists d|].
        rewrite Hatt. apply Hfail. lia.
      * destruct Hlast as [?|[? ->]]; [by left | by right].
Qed.


End RetryTheorems.

(** *** generate_rubric_id and save_rubric *)

Lemma lower_table_targets :
  forallb (fun r => let '(first, _, _, target) := r in (90 <? target)%N)
    Unicode.lower_table = true.
Proof. vm_compute. reflexivity. Qed.

Lemma lower_full_not_upper c x :
  x ∈ Unicode.lower_full c -> Unicode.is_ascii_upper x = false.
Proof.
  unfold Unicode.lower_full.
  destruct (c =? 304)%N.
  { intros Hx. repeat (apply elem_of_cons in Hx as [->|Hx]; [done|]).
    by apply elem_of_nil in Hx. }
  destruct (List.find _ _) as [[[[first last] step] target]|] eqn:Hf.
  - apply List.find_some in Hf as [Hin Hstep].
    pose proof lower_table_targets as Ht.
    rewrite forallb_forall in Ht. specialize (Ht _ Hin). simpl in Ht.
    intros ->%list_elem_of_singleton.
    unfold Unicode.is_ascii_upper.
    apply N.ltb_lt in Ht.
    apply andb_false_iff. right. apply N.leb_gt. lia.
  - intros ->%list_elem_of_singleton.
    pose proof (List.find_none _ _ Hf (65, 90, 1, 97)%N) as Hn.
    simpl in Hn. specialize (Hn (or_introl eq_refl)).
    unfold Unicode.is_ascii_upper.
    destruct (65 <=? c)%N eqn:E1; [|done].
    destruct (c <=? 90)%N eqn:E2; [|done].
    simpl in Hn. rewrite N.mod_1_r in Hn. done.
Qed.

Lemma lower_from_not_upper before s :
  Forall (fun x => Unicode.is_ascii_upper x = false) (Unicode.lower_from before s).
Proof.
  revert before. induction s as [|c s IH]; intros before; simpl; [constructor|].
  apply Forall_app. split; [|apply IH].
  destruct (c =? 931)%N.
  - constructor; [by destruct (Unicode.final_sigma _ _) | constructor].
  - apply Forall_forall. intros x Hx. by apply (lower_full_not_upper c).
Qed.

(** What line 88 leaves of a title: lowercase letters, digits, whitespace. *)
Lemma cleaned_chars title :
  Forall (fun c => Unicode.is_ascii_lower c || Unicode.is_ascii_digit c
                   || Unicode.is_space c = true)
    (List.filter keep_char (Unicode.lower title)).
Proof.
  apply Forall_forall. intros c Hc.
  apply list_elem_of_In, List.filter_In in Hc as [Hin Hk].
  pose proof (lower_from_not_upper [] title) as Hup.
  rewrite Forall_forall in Hup.
  apply list_elem_of_In, Hup in Hin.
  unfold keep_char in Hk. rewrite Hin in Hk. by rewrite orb_false_r in Hk.
Qed.

Lemma Forall_lstrip (P : N -> Prop) s : Forall P s -> Forall P (Unicode.lstrip s).
Proof.
  induction 1 as [|c s Hc Hs IH]; simpl; [constructor|].
  destruct (Unicode.is_space c); [done | by constructor].
Qed.

Lemma Forall_rstrip (P : N -> Prop) s : Forall P s -> Forall P (Unicode.rstrip s).
Proof.
  induction 1 as [|c s Hc Hs IH]; simpl; [constructor|].
  destruct (Unicode.rstrip s) as [|c' r].
  - destruct (Unicode.is_space c); by repeat constructor.
  - by constructor.
Qed.

Lemma sub_ws_runs_chars b s :
  Forall (fun c => Unicode.is_ascii_lower c || Unicode.is_ascii_digit c
                   || Unicode.is_space c = true) s ->
  Forall (fun c => slug_char c = true) (Unicode.sub_ws_runs b s).
Proof.
  intros H. revert b. induction H as [|c s Hc Hs IH]; intros b; simpl; [constructor|].
  destruct (Unicode.is_space c) eqn:Sp.
  - destruct b; [apply IH|]. constructor; [done | apply IH].
  - constructor; [|apply IH]. unfold slug_char.
    rewrite orb_false_r in Hc. by rewrite Hc.
Qed.

Lemma slug_chars {A} title (author : A) :
  Forall (fun c => slug_char c = true) (generate_rubric_id title author).
Proof.
  unfold generate_rubric_id. apply Forall_take, sub_ws_runs_chars.
  unfold Unicode.strip. apply Forall_rstrip, Forall_lstrip, cleaned_chars.
Qed.

Lemma slug_char_small c : slug_char c = true -> (c < 128)%N /\ c <> 47%N /\ c <> 46%N.
Proof.
  unfold slug_char, Unicode.is_ascii_lower, Unicode.is_ascii_digit.
  rewrite !orb_true_iff, !andb_true_iff, !N.leb_le, N.eqb_eq. lia.
Qed.

(** A text of code points below 256 goes through a string unchanged. *)
Lemma of_to_string t :
  Forall (fun c => (c < 256)%N) t -> Unicode.of_string (Unicode.to_string t) = t.
Proof.
  unfold Unicode.of_string, Unicode.to_string.
  rewrite list_ascii_of_string_of_list_ascii.
  induction 1 as [|c t Hc _ IH]; simpl; [done|].
  by rewrite N_ascii_embedding, IH.
Qed.

Lemma lstrip_sep_id c s : c <> 47%N -> Pathlib.lstrip_sep (c :: s) = c :: s.
Proof. intros Hc. simpl. apply N.eqb_neq in Hc. by rewrite Hc. Qed.

Lemma split_sep_one s :
  Forall (fun c => c <> 47%N) s -> Pathlib.split_sep s = [s].
Proof.
  induction 1 as [|c s Hc _ IH]; simpl; [done|].
  apply N.eqb_neq in Hc. by rewrite Hc, IH.
Qed.

(** A name without a slash that is neither empty nor a single dot is one
    component. *)
Lemma parse_name s :
  Forall (fun c => c <> 47%N) s -> Pathlib.is_component s = true ->
  Pathlib.parse s = {| Pathlib.root := []; Pathlib.parts := [s] |}.
Proof.
  intros Hs Hc. unfold Pathlib.parse, Pathlib.splitroot.
  destruct s as [|c s]; [done|].
  rewrite lstrip_sep_id by (by inversion Hs).
  rewrite Nat.sub_diag, split_sep_one by done.
  cbn [List.filter]. by rewrite Hc.
Qed.

Lemma is_component_json s : Pathlib.is_component (app s (Unicode.of_string ".json")) = true.
Proof. destruct s as [|c [|c' s]]; done. Qed.

Lemma slug_file_name {A} title (author : A) :
  Pathlib.parse (app (generate_rubric_id title author) (Unicode.of_string ".json"))
  = {| Pathlib.root := [];
       Pathlib.parts := [app (generate_rubric_id title author)
                           (Unicode.of_string ".json")] |}.
Proof.
  apply parse_name; [|apply is_component_json].
  apply Forall_app. split.
  - eapply Forall_impl; [apply slug_chars|].
    intros c Hc. by apply slug_char_small in Hc as (_ & ? & _).
  - by repeat constructor.
Qed.

Section SaveTheorems.

Import Pathlib ExtractRubric.

Variable script_dir : Path.
Variable mkdir_fails : Unicode.text -> world -> option exn.
Variable open_fails : Unicode.text -> world -> option exn.
Variable print_fails : Unicode.text -> world -> option exn.

Lemma write_rubric_eq path rubric w :
  write_rubric open_fails print_fails path rubric w =
  match open_fails (to_str path) w with
  | Some e => (Raise e, w)
  | None =>
      match print_fails (saved_line path) (with_file path rubric w) with
      | Some e => (Raise e, with_file path rubric w)
      | None => (Ok path, with_line (saved_line path) (with_file path rubric w))
      end
  end.
Proof. reflexivity. Qed.


End SaveTheorems.

(** *** chunk_transcript *)

Lemma rfind_scan_range s sub lo k :
  rfind_scan s sub lo k = -1 \/
  (lo <= rfind_scan s sub lo k < lo + Z.of_nat k).
Proof.
  induction k as [|k IH]; simpl; [by left|].
  destruct (prefix sub _).
  - right. lia.
  - destruct IH as [->|IH]; [by left | right; lia].
Qed.

(** A match of rfind lies at or after [start] and, for a bound [stop] that
    is not negative, ends at or before [stop]. *)
Lemma rfind_range s sub start stop :
  rfind s sub start stop <> -1 ->
  start <= rfind s sub start stop /\
  (0 <= stop -> rfind s sub start stop + len sub <= stop).
Proof.
  unfold rfind.
  set (n := len s).
  set (e := if n <? stop then n else if stop <? 0 then Z.max 0 (stop + n) else stop).
  set (b := if start <? 0 then Z.max 0 (start + n) else start).
  destruct (e - b <? len sub) eqn:Hlt; [done|].
  apply Z.ltb_ge in Hlt.
  destruct (rfind_scan_range s sub b (Z.to_nat (e - b - len sub + 1))) as [->|Hr];
    [done|].
  intros _.
  assert (start <= b) by (unfold b; destruct (start <? 0) eqn:E; lia).
  split; [lia|]. intros Hs.
  assert (e <= stop).
  { unfold e. destruct (n <? stop) eqn:E1; [lia|].
    destruct (stop <? 0) eqn:E2; lia. }
  lia.
Qed.

Lemma len_nl : len nl = 1.
Proof. reflexivity. Qed.

(** Every iteration ends its window at most 199 characters before
    [start + chunk_size]. *)
Lemma window_end_lower t cs start : start + cs - 199 <= window_end t cs start.
Proof.
  unfold window_end.
  destruct (start + cs <? len t); [|lia].
  destruct (rfind t nl _ _ =? -1) eqn:E1; simpl.
  - destruct (rfind t ". " _ _ =? -1) eqn:E2; simpl; [lia|].
    apply Z.eqb_neq in E2. apply rfind_range in E2 as [? _]. lia.
  - apply Z.eqb_neq in E1. apply rfind_range in E1 as [? _]. lia.
Qed.

Lemma window_end_upper t cs start :
  0 <= start + cs -> window_end t cs start <= start + cs.
Proof.
  intros Hs. unfold window_end.
  destruct (start + cs <? len t); [|lia].
  destruct (rfind t nl _ _ =? -1) eqn:E1; simpl.
  - destruct (rfind t ". " _ _ =? -1) eqn:E2; simpl; [lia|].
    apply Z.eqb_neq in E2. apply rfind_range in E2 as [_ H].
    specialize (H Hs). change (len ". ") with 2 in H. lia.
  - apply Z.eqb_neq in E1. apply rfind_range in E1 as [_ H].
    specialize (H Hs). rewrite len_nl in H. lia.
Qed.

Lemma chunk_loop_windows fuel t cs ov start acc :
  chunk_loop fuel t cs ov start acc =
  option_map (fun ws => app acc (map (chunk_of t) ws)) (windows fuel t cs ov start).
Proof.
  revert start acc. induction fuel as [|fuel IH]; intros start acc; simpl; [done|].
  destruct (start <? len t).
  - rewrite IH. destruct (windows fuel t cs ov _) as [ws|]; simpl; [|done].
    by rewrite <- app_assoc.
  - simpl. by rewrite app_nil_r.
Qed.

Lemma windows_terminate t cs ov :
  ov + 200 <= cs ->
  forall fuel start,
    len t - start <= Z.of_nat fuel ->
    exists ws, windows (S fuel) t cs ov start = Some ws.
Proof.
  intros Hp. induction fuel as [|fuel IH]; intros start Hf.
  - simpl. destruct (start <? len t) eqn:E; [|by eexists].
    apply Z.ltb_lt in E. lia.
  - change (windows (S (S fuel)) t cs ov start)
      with (if start <? len t
            then option_map (cons (start, window_end t cs start))
                   (windows (S fuel) t cs ov (window_end t cs start - ov))
            else Some []).
    destruct (start <? len t) eqn:E; [|by eexists].
    apply Z.ltb_lt in E.
    pose proof (window_end_lower t cs start).
    destruct (IH (window_end t cs start - ov)) as [ws ->]; [lia|].
    simpl. by eexists.
Qed.

Lemma windows_fuel_mono t cs ov fuel fuel' start ws :
  windows fuel t cs ov start = Some ws ->
  (fuel <= fuel')%nat ->
  windows fuel' t cs ov start = Some ws.
Proof.
  revert fuel' start ws. induction fuel as [|fuel IH]; intros fuel' start ws;
    simpl; [done|].
  intros H Hle. destruct fuel' as [|fuel']; [lia|]. simpl.
  destruct (start <? len t); [|done].
  destruct (windows fuel t cs ov _) as [ws'|] eqn:E; [|done].
  rewrite (IH fuel' _ _ E); [done | lia].
Qed.

Lemma windows_chained t cs ov fuel start ws :
  windows fuel t cs ov start = Some ws -> chained t cs ov start ws.
Proof.
  revert start ws. induction fuel as [|fuel IH]; intros start ws; simpl; [done|].
  destruct (start <? len t) eqn:E.
  - apply Z.ltb_lt in E.
    destruct (windows fuel t cs ov _) as [ws'|] eqn:Ew; simpl; [|done].
    intros [= <-]. simpl. repeat split; [done|]. by apply IH.
  - apply Z.ltb_ge in E. intros [= <-]. done.
Qed.

Lemma chained_cover t cs ov start ws i :
  0 <= ov -> chained t cs ov start ws ->
  start <= i < len t ->
  exists w, w ∈ ws /\ fst w <= i < snd w.
Proof.
  intros Hov. revert start. induction ws as [|[a b] ws IH]; intros start; simpl.
  - lia.
  - intros (-> & Hlt & -> & Hch) Hi.
    destruct (Z.lt_ge_cases i (window_end t cs start)) as [Hin|Hout].
    + exists (start, window_end t cs start). split; [by left | simpl; lia].
    + destruct (IH _ Hch) as (w & Hw & Hr); [lia|].
      exists w. split; [by right | done].
Qed.

Lemma chained_spans t cs ov start ws w :
  ov + 200 <= cs -> 0 <= ov -> 0 <= start ->
  chained t cs ov start ws -> w ∈ ws ->
  0 <= fst w < len t /\ fst w < snd w /\ snd w - fst w <= cs.
Proof.
  intros Hp Hov. revert start. induction ws as [|[a b] ws IH]; intros start Hs; simpl.
  - by intros _ ?%elem_of_nil.
  - intros (-> & Hlt & -> & Hch).
    pose proof (window_end_lower t cs start).
    pose proof (window_end_upper t cs start).
    intros [->|Hin]%elem_of_cons; [simpl; lia|].
    apply (IH (window_end t cs start - ov)); [lia | done | done].
Qed.

Lemma chained_overlap t cs ov start ws i w w' :
  chained t cs ov start ws ->
  ws !! i = Some w -> ws !! S i = Some w' -> fst w' = snd w - ov.
Proof.
  revert start i. induction ws as [|[a b] ws IH]; intros start i; simpl; [done|].
  intros (-> & Hlt & -> & Hch). destruct i as [|i]; simpl.
  - intros [= <-]. destruct ws as [|[a' b'] ws]; [done|].
    simpl in *. intros [= <-]. simpl. by destruct Hch as [-> _].
  - intros H1 H2. by apply (IH _ _ Hch H1 H2).
Qed.

(** C9.  With chunk_size >= overlap + 200 every iteration moves the window
    start forward by at least chunk_size - overlap - 199 >= 1 characters, and
    [chunk_transcript] returns: any fuel above the length of the transcript
    gives the same list of chunks. *)
Theorem chunk_transcript_terminates t chunk_size overlap :
  overlap + 200 <= chunk_size ->
  (forall start,
     start + (chunk_size - overlap - 199)
     <= window_end t chunk_size start - overlap) /\
  exists chunks,
    forall fuel, (String.length t < fuel)%nat ->
      chunk_transcript fuel t chunk_size overlap = Some chunks.
Proof.
  intros Hp. split.
  { intros start. pose proof (window_end_lower t chunk_size start). lia. }
  unfold chunk_transcript.
  destruct (len t <=? chunk_size); [by exists [t]|].
  destruct (windows_terminate t chunk_size overlap Hp (String.length t) 0)
    as [ws Hws]; [unfold len; lia|].
  exists (map (chunk_of t) ws). intros fuel Hf.
  rewrite chunk_loop_windows, (windows_fuel_mono _ _ _ _ fuel _ _ Hws); [done | lia].
Qed.

(** C3, as amended.  A transcript no longer than chunk_size is returned as
    the only chunk, whatever chunk_size and overlap are.  For a longer one,
    when 0 <= overlap and chunk_size >= overlap + 200, the function returns
    the stripped slices of windows (start, end) of which the first starts at
    0, which cover every position of the transcript, each of which starts
    inside the transcript and spans between 1 and chunk_size characters, and
    each of which starts exactly overlap characters before the end of the
    one before it. *)
Theorem chunk_transcript_windows t chunk_size overlap :
  (len t <= chunk_size ->
   forall fuel, chunk_transcript fuel t chunk_size overlap = Some [t]) /\
  (chunk_size < len t -> 0 <= overlap -> overlap + 200 <= chunk_size ->
   exists ws,
     (forall fuel, (String.length t < fuel)%nat ->
        chunk_transcript fuel t chunk_size overlap
        = Some (map (fun w => strip (slice t (fst w) (snd w))) ws)) /\
     (exists e rest, ws = (0, e) :: rest) /\
     (forall i, 0 <= i < len t -> exists w, w ∈ ws /\ fst w <= i < snd w) /\
     (forall w, w ∈ ws ->
        0 <= fst w < len t /\ fst w < snd w /\ snd w - fst w <= chunk_size) /\
     (forall i w w', ws !! i = Some w -> ws !! S i = Some w' ->
        fst w' = snd w - overlap)).
Proof.
  unfold chunk_transcript. split.
  { intros Hle fuel. apply Z.leb_le in Hle. by rewrite Hle. }
  intros Hlt Hov Hp. apply Z.leb_gt in Hlt as Hb. rewrite Hb.
  destruct (windows_terminate t chunk_size overlap Hp (String.length t) 0)
    as [ws Hws]; [unfold len; lia|].
  pose proof (windows_chained _ _ _ _ _ _ Hws) as Hch.
  exists ws. repeat split.
  - intros fuel Hf.
    rewrite chunk_loop_windows, (windows_fuel_mono _ _ _ _ fuel _ _ Hws); [done | lia].
  - destruct ws as [|[a b] rest]; simpl in Hch; [lia|].
    destruct Hch as (-> & _). by eauto.
  - intros i Hi. by apply (chained_cover _ _ _ _ _ _ Hov Hch).
  - by apply (chained_spans _ _ _ _ _ _ Hp Hov (Z.le_refl 0) Hch H).
  - by apply (chained_spans _ _ _ _ _ _ Hp Hov (Z.le_refl 0) Hch H).
  - by apply (chained_spans _ _ _ _ _ _ Hp Hov (Z.le_refl 0) Hch H).
  - by apply (chained_spans _ _ _ _ _ _ Hp Hov (Z.le_refl 0) Hch H).
  - intros i w w'. by apply (chained_overlap _ _ _ _ _ _ _ _ Hch).
Qed.

(** *** merge_rubrics *)

Lemma fresh_by_app key seen xs ys :
  fresh_by key seen (app xs ys) =
  app (fresh_by key seen xs) (fresh_by key (seen_after key seen xs) ys).
Proof.
  revert seen. induction xs as [|x xs IH]; intros seen; simpl; [done|].
  destruct (key x) as [k|]; [|apply IH].
  unfold set_insert. destruct (existsb (py_eqb k) seen); [apply IH|].
  simpl. by rewrite IH.
Qed.

Lemma seen_after_app key seen xs ys :
  seen_after key seen (app xs ys) = seen_after key (seen_after key seen xs) ys.
Proof.
  revert seen. induction xs as [|x xs IH]; intros seen; simpl; [done|].
  destruct (key x) as [k|]; apply IH.
Qed.

(** Running a computation that returns [a] and leaves the store at [h']. *)
Lemma bind_ok {A B} (m : M A) (k : A -> M B) h a h' :
  m h = Ok (a, h') -> bind m k h = k a h'.
Proof. intros H. unfold bind. by rewrite H. Qed.

Lemma foldM_app {A B} (body : A -> B -> M A) acc xs ys h acc' h' :
  foldM body acc xs h = Ok (acc', h') ->
  foldM body acc (app xs ys) h = foldM body acc' ys h'.
Proof.
  revert acc h. induction xs as [|x xs IH]; intros acc h; simpl.
  - by intros [= -> ->].
  - unfold bind. destruct (body acc x h) as [[a1 h1]|]; [|done].
    apply IH.
Qed.

Lemma set_add_ok k s h :
  hashable k = true -> set_add k s h = Ok (set_insert k s, h).
Proof. intros H. unfold set_add. by rewrite H. Qed.

Lemma set_mem_ok k s h :
  hashable k = true -> set_mem k s h = Ok (existsb (py_eqb k) s, h).
Proof. intros H. unfold set_mem. by rewrite H. Qed.

Section MergeUnique.

Variable field : string.
Variable key : value -> M value.
Variable keyf : value -> option value.
Variable h : store.
Variables m p : loc.
Variable d : list (string * value).

Hypothesis Hm : h !! m = Some (ODict d).
Hypothesis Hf : dict_get field d = Some (VRef p).
Hypothesis Hp : is_Some (h !! p).
Hypothesis Hmp : m <> p.

Lemma at_p_merged ys : at_p h p ys !! m = Some (ODict d).
Proof. unfold at_p. by rewrite list_lookup_insert_ne. Qed.

Lemma at_p_list ys : at_p h p ys !! p = Some (OList ys).
Proof.
  unfold at_p. apply list_lookup_insert_eq.
  by apply lookup_lt_is_Some.
Qed.

Lemma at_p_append ys x :
  list_append (VRef p) x (at_p h p ys) = Ok (tt, at_p h p (app ys [x])).
Proof.
  unfold list_append. rewrite at_p_list. unfold at_p.
  by rewrite list_insert_insert_eq.
Qed.

Lemma key_set_ok xs ys seen :
  Forall (keyed key keyf h p) xs ->
  foldM (fun acc x => let* k := key x in set_add k acc)%st seen xs (at_p h p ys)
  = Ok (seen_after keyf seen xs, at_p h p ys).
Proof.
  intros Hk. revert seen. induction Hk as [|x xs (k & Hkf & Hh & Hkey) _ IH];
    intros seen; simpl; [done|].
  rewrite (bind_ok _ _ _ (set_insert k seen) (at_p h p ys)).
  - rewrite Hkf. apply IH.
  - rewrite (bind_ok _ _ _ _ _ (Hkey ys)). by apply set_add_ok.
Qed.

(** The inner loop (the for over one rubric's items). *)
Lemma inner_loop_ok items ys seen :
  Forall (keyed key keyf h p) items ->
  foldM (fun existing x =>
    let* k := key x in
    let* seen := set_mem k existing in
    if seen then ret existing
    else
      let* target := getitem (VRef m) field in
      let* _ := list_append target x in
      let* k' := key x in
      set_add k' existing)%st seen items (at_p h p ys)
  = Ok (seen_after keyf seen items, at_p h p (app ys (fresh_by keyf seen items))).
Proof.
  intros Hk. revert seen ys.
  induction Hk as [|x xs (k & Hkf & Hh & Hkey) _ IH]; intros seen ys; simpl.
  - by rewrite app_nil_r.
  - rewrite Hkf. unfold set_insert.
    destruct (existsb (py_eqb k) seen) eqn:Hseen.
    + rewrite (bind_ok _ _ _ seen (at_p h p ys)); [apply IH|].
      rewrite (bind_ok _ _ _ _ _ (Hkey ys)).
      rewrite (bind_ok _ _ _ _ _ (set_mem_ok k seen _ Hh)).
      by rewrite Hseen.
    + rewrite (bind_ok _ _ _ (app seen [k]) (at_p h p (app ys [x]))).
      * rewrite IH. by rewrite <- app_assoc.
      * rewrite (bind_ok _ _ _ _ _ (Hkey ys)).
        rewrite (bind_ok _ _ _ _ _ (set_mem_ok k seen _ Hh)).
        rewrite Hseen.
        rewrite (bind_ok _ _ _ (VRef p) (at_p h p ys)).
        2:{ unfold getitem. by rewrite at_p_merged, Hf. }
        rewrite (bind_ok _ _ _ _ _ (at_p_append ys x)).
        rewrite (bind_ok _ _ _ _ _ (Hkey (app ys [x]))).
        rewrite set_add_ok by done. unfold set_insert. by rewrite Hseen.
Qed.

Lemma outer_loop_ok rest laters ys seen :
  Forall2 (yields field h p) rest laters ->
  Forall (keyed key keyf h p) (List.concat laters) ->
  foldM (fun existing rubric =>
    let* items := get_iter rubric field in
    foldM (fun existing x =>
      let* k := key x in
      let* seen := set_mem k existing in
      if seen then ret existing
      else
        let* target := getitem (VRef m) field in
        let* _ := list_append target x in
        let* k' := key x in
        set_add k' existing) existing items)%st seen rest (at_p h p ys)
  = Ok (seen_after keyf seen (List.concat laters),
        at_p h p (app ys (fresh_by keyf seen (List.concat laters)))).
Proof.
  intros Hy. revert ys seen.
  induction Hy as [|r items rest laters Hr _ IH]; intros ys seen Hk; simpl.
  - by rewrite app_nil_r.
  - simpl in Hk. apply Forall_app in Hk as [Hk1 Hk2].
    rewrite (bind_ok _ _ _ (seen_after keyf seen items)
               (at_p h p (app ys (fresh_by keyf seen items)))).
    + rewrite IH by done.
      by rewrite seen_after_app, fresh_by_app, app_assoc.
    + rewrite (bind_ok _ _ _ _ _ (Hr ys)). by apply inner_loop_ok.
Qed.

(** One merge block: the list at [p] gains the fresh elements of the later
    rubrics, and nothing else changes. *)
Lemma merge_unique_ok xs0 rest laters :
  h !! p = Some (OList xs0) ->
  Forall (keyed key keyf h p) xs0 ->
  Forall2 (yields field h p) rest laters ->
  Forall (keyed key keyf h p) (List.concat laters) ->
  merge_unique field key (VRef m) rest h
  = Ok (tt, <[p := OList (app xs0
                         (fresh_by keyf (seen_after keyf [] xs0) (List.concat laters)))]> h).
Proof.
  intros Hxs Hk0 Hy Hk.
  assert (h = at_p h p xs0) as Hh by (unfold at_p; by rewrite list_insert_id).
  unfold merge_unique.
  rewrite (bind_ok _ _ _ xs0 (at_p h p xs0)).
  2:{ unfold get_iter. rewrite (bind_ok _ _ _ d h).
      - rewrite Hf. unfold iterate. by rewrite Hxs, Hh at 1.
      - unfold as_dict. by rewrite Hm. }
  rewrite (bind_ok _ _ _ _ _ (key_set_ok xs0 xs0 [] Hk0)).
  rewrite (bind_ok _ _ _ _ _ (outer_loop_ok rest laters xs0 _ Hy Hk)).
  done.
Qed.

End MergeUnique.

Lemma first_value_not_none key items v :
  first_value key items = Some v -> is_none v = false.
Proof.
  induction items as [|[k w] items IH]; simpl; [done|].
  destruct (String.eqb key k); [|done].
  destruct w; try done; by intros [= <-].
Qed.

(** What the merged benchmarks hold under each key: the first rubric's value
    when it is not None, else the first value that is not None among the
    later rubrics' items, else what the first rubric had (None or nothing). *)
Lemma bench_fold_get key items b :
  dict_get key (fold_left bench_update items b) =
  match dict_get key b with
  | Some v =>
      if is_none v
      then match first_value key items with
           | Some w => Some w
           | None => Some v
           end
      else Some v
  | None => first_value key items
  end.
Proof.
  revert b. induction items as [|[k w] items IH]; intros b; simpl.
  - destruct (dict_get key b) as [v|]; [|done]. by destruct (is_none v).
  - rewrite IH. unfold bench_update. simpl.
    destruct (String.eqb key k) eqn:E.
    + apply String.eqb_eq in E. subst k.
      destruct w; simpl;
        try (destruct (dict_get key b) as [[]|] eqn:Hb; simpl;
             rewrite ?dict_get_set_eq, ?Hb; simpl; done).
    + apply String.eqb_neq in E.
      destruct w; simpl; try done;
        destruct (dict_get k b) as [[]|]; simpl;
        rewrite ?(dict_get_set_ne _ _ _ _ E); done.
Qed.

Section MergeBenchmarks.

Variable h : store.
Variables m b : loc.
Variable d : list (string * value).

Hypothesis Hm : h !! m = Some (ODict d).
Hypothesis Hf : dict_get "benchmarks" d = Some (VRef b).
Hypothesis Hb : is_Some (h !! b).
Hypothesis Hmb : m <> b.

Lemma at_b_merged bs : at_b h b bs !! m = Some (ODict d).
Proof. unfold at_b. by rewrite list_lookup_insert_ne. Qed.

Lemma at_b_dict bs : at_b h b bs !! b = Some (ODict bs).
Proof.
  unfold at_b. apply list_lookup_insert_eq. by apply lookup_lt_is_Some.
Qed.

Lemma bench_item_ok bs kv :
  (let '(key, v) := kv in
   match v with
   | VNone => ret tt
   | _ =>
       let* md := as_dict (VRef m) in
       let* current :=
         match dict_get "benchmarks" md with
         | Some bv => let* bd := as_dict bv in ret (dict_get key bd)
         | None => ret None
         end in
       match current with
       | Some VNone | None =>
           let* target := getitem (VRef m) "benchmarks" in
           setitem target key v
       | Some _ => ret tt
       end
   end)%st (at_b h b bs) = Ok (tt, at_b h b (bench_update bs kv)).
Proof.
  destruct kv as [key v]. unfold bench_update. simpl.
  assert (as_dict (VRef m) (at_b h b bs) = Ok (d, at_b h b bs)) as Hmd
    by (unfold as_dict; by rewrite at_b_merged).
  assert (as_dict (VRef b) (at_b h b bs) = Ok (bs, at_b h b bs)) as Hbd
    by (unfold as_dict; by rewrite at_b_dict).
  assert (getitem (VRef m) "benchmarks" (at_b h b bs) = Ok (VRef b, at_b h b bs)) as Hg
    by (unfold getitem; by rewrite at_b_merged, Hf).
  assert (forall x, setitem (VRef b) key x (at_b h b bs)
                    = Ok (tt, at_b h b (dict_set key x bs))) as Hs.
  { intros x. unfold setitem. rewrite at_b_dict. unfold at_b.
    by rewrite list_insert_insert_eq. }
  destruct v; [done | | | |];
    rewrite (bind_ok _ _ _ _ _ Hmd), Hf;
    rewrite (bind_ok _ _ _ (dict_get key bs) (at_b h b bs))
      by (by rewrite (bind_ok _ _ _ _ _ Hbd));
    (destruct (dict_get key bs) as [[]|]; try done;
     by rewrite (bind_ok _ _ _ _ _ Hg), Hs).
Qed.

Lemma bench_items_ok items bs :
  foldM (fun (_ : unit) (kv : string * value) =>
    let '(key, v) := kv in
    match v with
    | VNone => ret tt
    | _ =>
        let* md := as_dict (VRef m) in
        let* current :=
          match dict_get "benchmarks" md with
          | Some bv => let* bd := as_dict bv in ret (dict_get key bd)
          | None => ret None
          end in
        match current with
        | Some VNone | None =>
            let* target := getitem (VRef m) "benchmarks" in
            setitem target key v
        | Some _ => ret tt
        end
    end)%st tt items (at_b h b bs)
  = Ok (tt, at_b h b (fold_left bench_update items bs)).
Proof.
  revert bs. induction items as [|kv items IH]; intros bs; simpl; [done|].
  rewrite (bind_ok _ _ _ _ _ (bench_item_ok bs kv)). apply IH.
Qed.

Lemma merge_benchmarks_ok bs0 rest laters :
  h !! b = Some (ODict bs0) ->
  Forall2 (bench_yields h b) rest laters ->
  merge_benchmarks (VRef m) rest h
  = Ok (tt, <[b := ODict (fold_left bench_update (List.concat laters) bs0)]> h).
Proof.
  intros Hbs Hy.
  assert (h = at_b h b bs0) as Hh by (unfold at_b; by rewrite list_insert_id).
  unfold merge_benchmarks.
  rewrite (bind_ok _ _ _ tt (at_b h b (fold_left bench_update (List.concat laters) bs0)));
    [done|].
  rewrite Hh at 1. clear Hh Hbs. revert bs0.
  induction Hy as [|r items rest laters Hr _ IH]; intros bs0; simpl; [done|].
  rewrite (bind_ok _ _ _ tt (at_b h b (fold_left bench_update items bs0))).
  - rewrite IH. by rewrite fold_left_app.
  - specialize (Hr bs0). unfold bind in Hr |- *.
    destruct (as_dict r (at_b h b bs0)) as [[dr h1]|]; [|done].
    destruct (dict_get "benchmarks" dr) as [bv|].
    + destruct (as_dict bv h1) as [[its h2]|]; [|done].
      injection Hr as -> ->. apply bench_items_ok.
    + injection Hr as <- ->. apply bench_items_ok.
Qed.

End MergeBenchmarks.

Lemma stable_refl W h : stable W h h.
Proof. by intros l o. Qed.

Lemma stable_alloc W h o : stable W h (app h [o]).
Proof. intros l o' _ H. by apply lookup_app_l_Some. Qed.

Lemma stable_insert W h h' p o :
  p ∈ W -> stable W h h' -> stable W h (<[p := o]> h').
Proof.
  intros Hp Hs l o' Hl H. rewrite list_lookup_insert_ne; [by apply Hs|].
  intros ->. done.
Qed.

Lemma points_off_stable W h h' v o :
  stable W h h' -> points_off W h v o -> points_off W h' v o.
Proof. intros Hs (l & -> & Hl & H). exists l. eauto. Qed.

Lemma points_off_in W h v o l :
  points_off W h v o -> l ∈ W -> v <> VRef l.
Proof. intros (l' & -> & Hl & _) Hin [= ->]. done. Qed.

Lemma keyed_of_stable W h hs p key x :
  keyed_dict W h key x -> stable W h hs -> p ∈ W ->
  keyed (fun x => getitem x key) (field_of h key) hs p x.
Proof.
  intros (d & k & (l & -> & Hl & Hd) & Hk & Hh) Hs Hp.
  exists k. split; [by simpl; rewrite Hd|]. split; [done|].
  intros ys. unfold getitem, at_p.
  rewrite (stable_insert W h hs p _ Hp Hs l _ Hl Hd). by rewrite Hk.
Qed.

Lemma hashable_keyed hs p x :
  hashable x = true -> keyed ret Some hs p x.
Proof. intros H. exists x. done. Qed.

Lemma yields_of_stable W h hs p field r d v items :
  points_off W h r (ODict d) -> dict_get field d = Some v ->
  points_off W h v (OList items) ->
  stable W h hs -> p ∈ W ->
  yields field hs p r items.
Proof.
  intros (l & -> & Hl & Hd) Hf (li & -> & Hli & Hi) Hs Hp ys.
  pose proof (stable_insert W h hs p (OList ys) Hp Hs) as Hst.
  unfold get_iter, at_p. rewrite (bind_ok _ _ _ d (<[p := OList ys]> hs)).
  - rewrite Hf. unfold iterate. by rewrite (Hst _ _ Hli Hi).
  - unfold as_dict. by rewrite (Hst _ _ Hl Hd).
Qed.

Lemma bench_yields_of_stable W h hs b r d v items :
  points_off W h r (ODict d) -> dict_get "benchmarks" d = Some v ->
  points_off W h v (ODict items) ->
  stable W h hs -> b ∈ W ->
  bench_yields hs b r items.
Proof.
  intros (l & -> & Hl & Hd) Hf (li & -> & Hli & Hi) Hs Hb bs.
  pose proof (stable_insert W h hs b (ODict bs) Hb Hs) as Hst.
  unfold at_b. rewrite (bind_ok _ _ _ d (<[b := ODict bs]> hs)).
  - rewrite Hf. unfold as_dict. by rewrite (Hst _ _ Hli Hi).
  - unfold as_dict. by rewrite (Hst _ _ Hl Hd).
Qed.

Lemma Forall2_views {A} (P : value -> list A -> Prop) W h (f : rubric_view -> list A)
    rest views :
  Forall2 (has_view W h) rest views ->
  (forall r rv, has_view W h r rv -> P r (f rv)) ->
  Forall2 P rest (map f views).
Proof.
  intros H HP. induction H as [|r rv rest views Hr _ IH]; simpl; constructor; auto.
Qed.

(** C1, as amended.  For the empty list the result is a new empty dict and
    for a one-element list it is that element.  For a first rubric and at
    least one later rubric, all with the four fields, whose lists and dicts
    are separate objects, with hashable phase names, insights and triggers:
    the result is a new dict with the first rubric's entries, so its phases,
    key_insights, benchmarks and decision_points are the first rubric's own
    objects; after the call the phases list holds the first rubric's phases
    as they were, followed by the phases of the later rubrics whose name is
    not the name of a phase kept before them (the whole list is the
    deduplication of all phases by name exactly when the first rubric's own
    phases have no repeated name), likewise key_insights by value and
    decision_points by trigger; and benchmarks holds under each key the first
    rubric's value when that is not None, else the first value that is not
    None in the later rubrics, else what the first rubric had. *)
Theorem merge_rubrics_result h l0 d0 p0 k0 b0 q0 ps0 ks0 bs0 qs0 later rest views :
  let W := [p0; k0; b0; q0] in
  let names := field_of h "name" in
  let triggers := field_of h "trigger" in
  let phases := List.concat (map v_phases views) in
  let insights := List.concat (map v_insights views) in
  let items := List.concat (map v_benchmarks views) in
  let dps := List.concat (map v_dps views) in
  h !! l0 = Some (ODict d0) ->
  dict_get "phases" d0 = Some (VRef p0) /\ h !! p0 = Some (OList ps0) ->
  dict_get "key_insights" d0 = Some (VRef k0) /\ h !! k0 = Some (OList ks0) ->
  dict_get "benchmarks" d0 = Some (VRef b0) /\ h !! b0 = Some (ODict bs0) ->
  dict_get "decision_points" d0 = Some (VRef q0) /\ h !! q0 = Some (OList qs0) ->
  NoDup [p0; k0; q0] ->
  Forall2 (has_view W h) (later :: rest) views ->
  Forall (keyed_dict W h "name") (app ps0 phases) ->
  Forall (fun x => hashable x = true) (app ks0 insights) ->
  Forall (keyed_dict W h "trigger") (app qs0 dps) ->
  (forall hx, merge_rubrics [] hx = Ok (VRef (List.length hx), app hx [ODict []])) /\
  (forall r hx, merge_rubrics [r] hx = Ok (r, hx)) /\
  exists h' bs',
    merge_rubrics (VRef l0 :: later :: rest) h = Ok (VRef (List.length h), h') /\
    h' !! List.length h = Some (ODict d0) /\
    h' !! p0 = Some (OList (app ps0 (fresh_by names (seen_after names [] ps0) phases))) /\
    (dedup_by names ps0 = ps0 ->
     app ps0 (fresh_by names (seen_after names [] ps0) phases)
     = dedup_by names (app ps0 phases)) /\
    h' !! k0 = Some (OList (app ks0 (fresh_by Some (seen_after Some [] ks0) insights))) /\
    (dedup_by Some ks0 = ks0 ->
     app ks0 (fresh_by Some (seen_after Some [] ks0) insights)
     = dedup_by Some (app ks0 insights)) /\
    h' !! q0 = Some (OList (app qs0 (fresh_by triggers (seen_after triggers [] qs0) dps))) /\
    (dedup_by triggers qs0 = qs0 ->
     app qs0 (fresh_by triggers (seen_after triggers [] qs0) dps)
     = dedup_by triggers (app qs0 dps)) /\
    h' !! b0 = Some (ODict bs') /\
    (forall key,
       dict_get key bs' =
       match dict_get key bs0 with
       | Some v =>
           if is_none v
           then match first_value key items with
                | Some w => Some w
                | None => Some v
                end
           else Some v
       | None => first_value key items
       end) /\
    (forall l, l ∉ W -> (l < List.length h)%nat -> h' !! l = h !! l).
Proof.
  intros W names triggers phases insights items dps
    Hl0 [Hfp Hp] [Hfk Hk] [Hfb Hb] [Hfq Hq] Hnd Hviews Hnames Hins Htrig.
  split; [done|]. split; [done|].
  set (m := List.length h).
  set (hm := app h [ODict d0]).
  assert (Hlt : forall l o, h !! l = Some o -> (l < m)%nat /\ l <> m).
  { intros l o H. apply lookup_lt_Some in H. unfold m. lia. }
  destruct (Hlt _ _ Hp) as [Hp_lt Hp_m]. destruct (Hlt _ _ Hk) as [Hk_lt Hk_m].
  destruct (Hlt _ _ Hb) as [Hb_lt Hb_m]. destruct (Hlt _ _ Hq) as [Hq_lt Hq_m].
  apply NoDup_cons in Hnd as [Hpk Hnd]. apply NoDup_cons in Hnd as [Hkq _].
  assert (p0 <> k0 /\ p0 <> q0 /\ k0 <> q0) as (Hpk' & Hpq & Hkq').
  { repeat split; intros ->; [apply Hpk | apply Hpk | apply Hkq];
      by repeat constructor. }
  assert (b0 <> p0 /\ b0 <> k0 /\ b0 <> q0) as (Hbp & Hbk & Hbq).
  { repeat split; intros ->; congruence. }
  assert (HpW : p0 ∈ W) by (unfold W; by repeat constructor).
  assert (HkW : k0 ∈ W) by (unfold W; by repeat constructor).
  assert (HbW : b0 ∈ W) by (unfold W; by repeat constructor).
  assert (HqW : q0 ∈ W) by (unfold W; by repeat constructor).
  assert (Hm_m : hm !! m = Some (ODict d0)) by (unfold hm, m; apply list_lookup_middle; done).
  (* stage 1: phases *)
  set (P := app ps0 (fresh_by names (seen_after names [] ps0) phases)).
  set (h1 := <[p0 := OList P]> hm).
  assert (Hs0 : stable W h hm) by apply stable_alloc.
  assert (Hs1 : stable W h h1) by (by apply stable_insert).
  apply Forall_app in Hnames as [Hn0 Hn1].
  assert (E1 : merge_unique "phases" (fun p => getitem p "name") (VRef m)
                 (later :: rest) hm = Ok (tt, h1)).
  { apply (merge_unique_ok "phases" _ names hm m p0 d0 Hm_m Hfp).
    - exists (OList ps0). by apply lookup_app_l_Some.
    - done.
    - by apply lookup_app_l_Some.
    - eapply Forall_impl; [exact Hn0|]. intros x Hx.
      by apply (keyed_of_stable W h).
    - apply (Forall2_views _ W h v_phases _ _ Hviews).
      intros r rv (d & vp & vk & vb & vq & Hr & Hf1 & Hv1 & _).
      by apply (yields_of_stable W h hm p0 "phases" r d vp).
    - eapply Forall_impl; [exact Hn1|]. intros x Hx.
      by apply (keyed_of_stable W h). }
  (* stage 2: key_insights *)
  set (K := app ks0 (fresh_by Some (seen_after Some [] ks0) insights)).
  set (h2 := <[k0 := OList K]> h1).
  assert (Hs2 : stable W h h2) by (by apply stable_insert).
  assert (Hm1 : h1 !! m = Some (ODict d0))
    by (unfold h1; by rewrite list_lookup_insert_ne).
  assert (Hk1 : h1 !! k0 = Some (OList ks0)).
  { unfold h1. rewrite list_lookup_insert_ne by done. by apply lookup_app_l_Some. }
  apply Forall_app in Hins as [Hi0 Hi1].
  assert (E2 : merge_unique "key_insights" ret (VRef m) (later :: rest) h1
               = Ok (tt, h2)).
  { apply (merge_unique_ok "key_insights" _ Some h1 m k0 d0 Hm1 Hfk).
    - by eexists.
    - done.
    - done.
    - eapply Forall_impl; [exact Hi0|]. intros x Hx. by apply hashable_keyed.
    - apply (Forall2_views _ W h v_insights _ _ Hviews).
      intros r rv (d & vp & vk & vb & vq & Hr & _ & _ & Hf2 & Hv2 & _).
      by apply (yields_of_stable W h h1 k0 "key_insights" r d vk).
    - eapply Forall_impl; [exact Hi1|]. intros x Hx. by apply hashable_keyed. }
  (* stage 3: benchmarks *)
  set (B := fold_left bench_update items bs0).
  set (h3 := <[b0 := ODict B]> h2).
  assert (Hs3 : stable W h h3) by (by apply stable_insert).
  assert (Hm2 : h2 !! m = Some (ODict d0))
    by (unfold h2; by rewrite list_lookup_insert_ne).
  assert (Hb2 : h2 !! b0 = Some (ODict bs0)).
  { unfold h2, h1. rewrite !list_lookup_insert_ne by done.
    by apply lookup_app_l_Some. }
  assert (E3 : merge_benchmarks (VRef m) (later :: rest) h2 = Ok (tt, h3)).
  { apply (merge_benchmarks_ok h2 m b0 d0 Hm2 Hfb).
    - by eexists.
    - done.
    - done.
    - apply (Forall2_views _ W h v_benchmarks _ _ Hviews).
      intros r rv (d & vp & vk & vb & vq & Hr & _ & _ & _ & _ & Hf3 & Hv3 & _).
      by apply (bench_yields_of_stable W h h2 b0 r d vb). }
  (* stage 4: decision_points *)
  set (Q := app qs0 (fresh_by triggers (seen_after triggers [] qs0) dps)).
  set (h4 := <[q0 := OList Q]> h3).
  assert (Hm3 : h3 !! m = Some (ODict d0))
    by (unfold h3; by rewrite list_lookup_insert_ne).
  assert (Hq3 : h3 !! q0 = Some (OList qs0)).
  { unfold h3, h2, h1. rewrite !list_lookup_insert_ne by done.
    by apply lookup_app_l_Some. }
  apply Forall_app in Htrig as [Ht0 Ht1].
  assert (E4 : merge_unique "decision_points" (fun dp => getitem dp "trigger")
                 (VRef m) (later :: rest) h3 = Ok (tt, h4)).
  { apply (merge_unique_ok "decision_points" _ triggers h3 m q0 d0 Hm3 Hfq).
    - by eexists.
    - done.
    - done.
    - eapply Forall_impl; [exact Ht0|]. intros x Hx.
      by apply (keyed_of_stable W h).
    - apply (Forall2_views _ W h v_dps _ _ Hviews).
      intros r rv (d & vp & vk & vb & vq & Hr & _ & _ & _ & _ & _ & _ & Hf4 & Hv4).
      by apply (yields_of_stable W h h3 q0 "decision_points" r d vq).
    - eapply Forall_impl; [exact Ht1|]. intros x Hx.
      by apply (keyed_of_stable W h). }
  assert (Hlen : forall l, (l < m)%nat -> (l < List.length hm)%nat).
  { intros l Hl. unfold hm. rewrite length_app. simpl. unfold m in Hl. lia. }
  exists h4, B. split.
  { unfold merge_rubrics.
    rewrite (bind_ok _ _ _ d0 h) by (unfold as_dict; by rewrite Hl0).
    rewrite (bind_ok _ _ _ (VRef m) hm) by done.
    by rewrite (bind_ok _ _ _ _ _ E1), (bind_ok _ _ _ _ _ E2),
      (bind_ok _ _ _ _ _ E3), (bind_ok _ _ _ _ _ E4). }
  split; [unfold h4; by rewrite list_lookup_insert_ne|].
  split.
  { unfold h4, h3, h2, h1. rewrite !list_lookup_insert_ne by done.
    apply list_lookup_insert_eq. by apply Hlen. }
  split.
  { intros Hd. unfold dedup_by in *. by rewrite fresh_by_app, Hd. }
  split.
  { unfold h4, h3, h2. rewrite !list_lookup_insert_ne by done.
    apply list_lookup_insert_eq. unfold h1. rewrite length_insert. by apply Hlen. }
  split.
  { intros Hd. unfold dedup_by in *. by rewrite fresh_by_app, Hd. }
  split.
  { unfold h4. apply list_lookup_insert_eq. unfold h3, h2, h1.
    rewrite !length_insert. by apply Hlen. }
  split.
  { intros Hd. unfold dedup_by in *. by rewrite fresh_by_app, Hd. }
  split.
  { unfold h4, h3. rewrite list_lookup_insert_ne by done.
    apply list_lookup_insert_eq. unfold h2, h1. rewrite !length_insert.
    by apply Hlen. }
  split; [intros key; apply bench_fold_get|].
  intros l HlW Hl. unfold W in HlW. rewrite !not_elem_of_cons in HlW.
  destruct HlW as (? & ? & ? & ? & _).
  unfold h4, h3, h2, h1. rewrite !list_lookup_insert_ne by done.
  unfold hm. by apply lookup_app_l.
Qed.

(** *** Counterexamples and instances *)

(** C1: the first rubric's repeated phase name stays in the merged phases. *)
Lemma merge_rubrics_keeps_first_duplicates :
  let st := load_all [rubric_dup; rubric_b] [] in
  exists m h' phases,
    merge_rubrics (fst st) (snd st) = Ok (m, h') /\
    read_field 3 h' m "phases" = Some (JArr phases) /\
    phases = [phase_named "Dark Age"; phase_named "Dark Age"; phase_named "Feudal Age"] /\
    phases <>
    json_dedup json_name []
      [phase_named "Dark Age"; phase_named "Dark Age";
       phase_named "Dark Age"; phase_named "Feudal Age"].
Proof.
  eexists _, _, _. split; [vm_compute; reflexivity|].
  split; [vm_compute; reflexivity|]. split; [reflexivity|].
  vm_compute. discriminate.
Qed.

(** C10: after merging [rubric_a] and [rubric_b], the first input rubric
    itself holds the merged lists and benchmarks. *)
Theorem merge_rubrics_mutates_first_input :
  let st := load_all [rubric_a; rubric_b] [] in
  exists first m h',
    fst st !! 0%nat = Some first /\
    merge_rubrics (fst st) (snd st) = Ok (m, h') /\
    read_back 3 (snd st) first = Some rubric_a /\
    read_back 3 h' first =
      Some (sample_rubric [phase_named "Dark Age"; phase_named "Feudal Age"]
              [JStr "scout early"; JStr "wall up"]
              [("feudal_age", JNum 300)] [JObj [("trigger", JStr "rush")]]) /\
    read_back 3 h' first <> read_back 3 (snd st) first.
Proof.
  eexists _, _, _. split; [vm_compute; reflexivity|].
  split; [vm_compute; reflexivity|].
  split; [vm_compute; reflexivity|].
  split; [vm_compute; reflexivity|].
  vm_compute. discriminate.
Qed.

(** C5: the text [] is valid JSON and [parse_rubric_json] raises TypeError. *)
Lemma parse_rubric_json_list_raises :
  sample_loads (strip (RubricParser.extract_fenced "[]")) = Ok (JArr []) /\
  RubricParser.parse_rubric_json sample_loads "2024-01-01T00:00:00" "[]"
  = Raise TypeError.
Proof. split; vm_compute; reflexivity. Qed.




Lemma windows_S fuel t cs ov start :
  windows (S fuel) t cs ov start =
  if start <? len t
  then option_map (cons (start, window_end t cs start))
         (windows fuel t cs ov (window_end t cs start - ov))
  else Some [].
Proof. reflexivity. Qed.

Lemma looping_windows fuel : windows fuel looping_transcript 300 150 0 = None.
Proof.
  assert (Hlen : (0 <? len looping_transcript) = true) by (vm_compute; reflexivity).
  assert (Hend : window_end looping_transcript 300 0 - 150 = 0)
    by (vm_compute; reflexivity).
  induction fuel as [|fuel IH]; [reflexivity|].
  rewrite windows_S, Hlen, Hend, IH. reflexivity.
Qed.

(** C3: with chunk_size 300 and overlap 150, on a transcript of 301
    characters whose only newline is at index 149, the first window ends
    after that newline, the next one starts at 0 again, and the call never
    returns. *)
Lemma chunk_transcript_never_returns :
  len looping_transcript = 301 /\
  window_end looping_transcript 300 0 = 150 /\
  ~ exists fuel chunks,
      chunk_transcript fuel looping_transcript 300 150 = Some chunks.
Proof.
  split; [vm_compute; reflexivity|]. split; [vm_compute; reflexivity|].
  intros (fuel & chunks & H). unfold chunk_transcript in H.
  assert ((len looping_transcript <=? 300) = false) as Hgt by (vm_compute; reflexivity).
  rewrite Hgt, chunk_loop_windows, looping_windows in H. discriminate.
Qed.

(** Instances of the theorems that have hypotheses. *)

(** C2 on [sample_response]: the action gets its importance, the phase its
    two missing lists, the rubric its defaults. *)
Lemma parse_rubric_json_fields_witness :
  RubricParser.parse_rubric_json sample_loads "2024-01-01T00:00:00" sample_response
  = Ok sample_validated /\
  exists parsed r,
    sample_loads (strip (RubricParser.extract_fenced sample_response))
    = Ok (JObj parsed) /\
    sample_validated = JObj r /\
    (exists phases,
       dict_get "phases" r = Some phases /\
       looped phase_filled (default (JArr []) (dict_get "phases" parsed)) phases /\
       forall phase, phase ∈ elements phases ->
         exists p actions,
           phase = JObj p /\
           dict_get "key_actions" p = Some actions /\
           is_Some (dict_get "success_criteria" p) /\
           is_Some (dict_get "common_mistakes" p) /\
           forall action, action ∈ elements actions ->
             exists a, action = JObj a /\ is_Some (dict_get "importance" a)) /\
    (exists b0 b,
       default (JObj []) (dict_get "benchmarks" parsed) = JObj b0 /\
       dict_get "benchmarks" r = Some (JObj b) /\
       (forall k, k ∈ ["feudal_age"; "castle_age"; "imperial_age"; "second_tc";
                       "third_tc"; "villagers_at_10min"; "villagers_at_castle"] ->
          dict_get k b = Some (default JNull (dict_get k b0))) /\
       (forall k, k ∉ ["feudal_age"; "castle_age"; "imperial_age"; "second_tc";
                       "third_tc"; "villagers_at_10min"; "villagers_at_castle"] ->
          dict_get k b = dict_get k b0)).
Proof.
  assert (RubricParser.parse_rubric_json sample_loads "2024-01-01T00:00:00"
            sample_response = Ok sample_validated) as Hrun
    by (vm_compute; reflexivity).
  split; [exact Hrun|].
  destruct (parse_rubric_json_fields sample_loads "2024-01-01T00:00:00"
              sample_response sample_validated Hrun)
    as (parsed & r & H1 & H2 & _ & _ & _ & _ & _ & _ & H3 & H4 & _).
  exists parsed, r. split; [exact H1|]. split; [exact H2|].
  split; [exact H3 | exact H4].
Defined.

Lemma validate_rubric_idempotent_witness :
  RubricParser._validate_rubric "2024-01-01T00:00:00" (JObj [])
  = Ok (JObj validated_empty) /\
  exists out' r r',
    RubricParser._validate_rubric "2024-06-30T12:00:00" (JObj validated_empty)
    = Ok out' /\
    JObj validated_empty = JObj r /\ out' = JObj r' /\
    map fst r' = map fst r /\
    (forall k, k <> "_meta" -> dict_get k r' = dict_get k r) /\
    ("2024-06-30T12:00:00" = "2024-01-01T00:00:00" -> out' = JObj validated_empty).
Proof.
  split; [reflexivity|].
  exact (validate_rubric_idempotent "2024-01-01T00:00:00" "2024-06-30T12:00:00"
           (JObj []) (JObj validated_empty) eq_refl).
Defined.



Lemma chunk_transcript_terminates_witness :
  30 + 200 <= 230 /\
  exists chunks,
    forall fuel, (String.length sample_transcript < fuel)%nat ->
      Youtube.chunk_transcript fuel sample_transcript 230 30 = Some chunks.
Proof.
  split; [lia|].
  exact (proj2 (chunk_transcript_terminates sample_transcript 230 30 ltac:(lia))).
Defined.

(** C3 on a transcript of 250 letters: with chunk_size 300 it is the only
    chunk; with chunk_size 230 and overlap 30 the windows cover it. *)
Lemma chunk_transcript_windows_witness :
  (len sample_transcript <= 300 /\
   forall fuel, Youtube.chunk_transcript fuel sample_transcript 300 500
                = Some [sample_transcript]) /\
  230 < len sample_transcript /\ 0 <= 30 /\ 30 + 200 <= 230 /\
  exists ws,
    (forall fuel, (String.length sample_transcript < fuel)%nat ->
       Youtube.chunk_transcript fuel sample_transcript 230 30
       = Some (map (fun w => strip (slice sample_transcript (fst w) (snd w))) ws)) /\
    (forall i, 0 <= i < len sample_transcript ->
       exists w, w ∈ ws /\ fst w <= i < snd w).
Proof.
  assert (len sample_transcript = 250) as Hlen by (vm_compute; reflexivity).
  split.
  { split; [lia|].
    apply (proj1 (chunk_transcript_windows sample_transcript 300 500)). lia. }
  split; [lia|]. split; [lia|]. split; [lia|].
  destruct (proj2 (chunk_transcript_windows sample_transcript 230 30)
              ltac:(lia) ltac:(lia) ltac:(lia))
    as (ws & H1 & _ & H3 & _).
  exists ws. split; [exact H1 | exact H3].
Defined.

(** Closes [l ∉ [l1; ...]] and [NoDup] side goals on literal places. *)
Ltac not_in_list :=
  let H := fresh in
  intros H;
  repeat (apply elem_of_cons in H as [H|H]; [discriminate H|]);
  by apply elem_of_nil in H.

Lemma merge_rubrics_result_witness :
  exists h' bs',
    merge_rubrics [VRef 5%nat; VRef 13%nat] sample_store
    = Ok (VRef (List.length sample_store), h') /\
    h' !! 1%nat = Some (OList [VRef 0%nat; VRef 7%nat]) /\
    h' !! 2%nat = Some (OList [VStr "scout early"; VStr "wall up"]) /\
    h' !! 4%nat = Some (OList [VRef 11%nat]) /\
    h' !! 3%nat = Some (ODict bs') /\
    dict_get "feudal_age" bs' = Some (VInt 300).
Proof.
  destruct (merge_rubrics_result sample_store 5%nat
              [("phases", VRef 1%nat); ("key_insights", VRef 2%nat);
               ("benchmarks", VRef 3%nat); ("decision_points", VRef 4%nat)]
              1%nat 2%nat 3%nat 4%nat
              [VRef 0%nat] [VStr "scout early"] [("feudal_age", VNone)] []
              (VRef 13%nat) [] [view_b])
    as (_ & _ & h' & bs' & Hrun & _ & Hp & _ & Hk & _ & Hq & _ & Hb & Hget & _).
  - reflexivity.
  - split; reflexivity.
  - split; reflexivity.
  - split; reflexivity.
  - split; reflexivity.
  - repeat constructor; not_in_list.
  - repeat constructor.
    exists [("phases", VRef 8%nat); ("key_insights", VRef 9%nat);
            ("benchmarks", VRef 10%nat); ("decision_points", VRef 12%nat)],
      (VRef 8%nat), (VRef 9%nat), (VRef 10%nat), (VRef 12%nat).
    repeat split; try reflexivity;
      (eexists; split; [reflexivity|]; split; [not_in_list | reflexivity]).
  - repeat constructor;
      (eexists _, _; split;
       [eexists; split; [reflexivity|]; split; [not_in_list | reflexivity]
       | split; reflexivity]).
  - repeat constructor.
  - repeat constructor.
    eexists _, _; split;
      [eexists; split; [reflexivity|]; split; [not_in_list | reflexivity]
      | split; reflexivity].
  - exists h', bs'. split; [exact Hrun|]. split; [exact Hp|].
    split; [exact Hk|]. split; [exact Hq|]. split; [exact Hb|].
    rewrite Hget. reflexivity.
Defined.
